(** * Volatility classification of [sweetviz_stock_insights.py]

    A shallow embedding of the script's data path

      fetch_stock_data -> generate_sweetviz_report
                       -> generate_volatility_comparison

    together with the pandas / numpy operations it calls
    ([DataFrame.pct_change], [DataFrame.std(axis=1)], [Series.median],
    [Series > scalar], [np.where], [df[name] = ...]).

    Numbers.  The script computes on float64 columns in which NaN marks a
    missing value.  A cell is modelled as [option num]: [None] is the
    missing value, [Some x] a number.  The arithmetic on [num] is an
    interface with two instances: [binary64], the IEEE doubles the script
    runs on, used to run the model on sample tables, and [exact], the real
    numbers, over which the statements about the standard deviation, the
    median and the order of columns are proved.  Rounding, overflow and a
    NaN produced by the arithmetic itself (a zero price) are outside the
    model.

    Objects.  A frame is a mutable Python object.  Variables hold
    references into a heap, and [df[name] = ...] updates the object behind
    the reference.

    Collaborators.  [yf.download], [sv.analyze] and [sv.compare_intra] are
    parameters: any function of the right shape that returns a value or
    raises. *)

From Stdlib Require Import Ascii String List Bool Arith Lia ZArith.
From Stdlib Require Import Permutation Sorted.
From Stdlib Require Import Reals Lra.
From Stdlib Require Import Floats Uint63.
Import ListNotations.
Local Open Scope string_scope.
Local Open Scope list_scope.
Local Open Scope nat_scope.

Set Implicit Arguments.

(* ------------------------------------------------------------------ *)
(** ** Numbers *)

Class Float64 (num : Type) : Type := {
  f_zero : num;
  f_one : num;
  f_add : num -> num -> num;
  f_sub : num -> num -> num;
  f_mul : num -> num -> num;
  f_div : num -> num -> num;
  f_sqrt : num -> num;
  f_of_nat : nat -> num;          (* an integer count used as a float *)
  f_lt : num -> num -> bool;      (* x < y *)
  f_isnan : num -> bool           (* the result of an operation is NaN *)
}.

(** IEEE 754 binary64, the dtype of the price columns. *)
#[global] Instance binary64 : Float64 float := {
  f_zero := 0%float;
  f_one := 1%float;
  f_add := PrimFloat.add;
  f_sub := PrimFloat.sub;
  f_mul := PrimFloat.mul;
  f_div := PrimFloat.div;
  f_sqrt := PrimFloat.sqrt;
  f_of_nat := fun n => PrimFloat.of_uint63 (Uint63.of_Z (Z.of_nat n));
  f_lt := PrimFloat.ltb;
  f_isnan := PrimFloat.is_nan
}.

Definition Rltb (x y : R) : bool := if Rlt_dec x y then true else false.

(** The same operations without rounding.  No real number is NaN, and
    there is no infinity: a statement over these numbers speaks for the
    program with rounding left aside and where no price is zero.  What
    rounding changes is shown on [binary64] tables. *)
#[global] Instance exact : Float64 R := {
  f_zero := 0%R;
  f_one := 1%R;
  f_add := Rplus;
  f_sub := Rminus;
  f_mul := Rmult;
  f_div := Rdiv;
  f_sqrt := R_sqrt.sqrt;
  f_of_nat := INR;
  f_lt := Rltb;
  f_isnan := fun _ => false
}.

(* ------------------------------------------------------------------ *)
(** ** Exceptions and results *)

(** A raised Python exception: its class name and [str(e)]. *)
Inductive exn : Type := Exn (cls : string) (msg : string).

Definition exn_str (e : exn) : string := let 'Exn _ m := e in m.

Inductive result (A : Type) : Type :=
| Ok (a : A)
| Raise (e : exn).
Arguments Ok {A} a.
Arguments Raise {A} e.

Definition rbind {A B} (r : result A) (k : A -> result B) : result B :=
  match r with
  | Ok a => k a
  | Raise e => Raise e
  end.

(** Whether the class derives from [Exception]: all do but the builtin
    classes placed directly under [BaseException]. *)
Definition is_Exception (e : exn) : bool :=
  let 'Exn cls _ := e in
  negb (existsb (String.eqb cls)
          ["BaseException"; "KeyboardInterrupt"; "SystemExit"; "GeneratorExit"]).

Definition TypeError : exn :=
  Exn "TypeError" "unsupported operand type(s) for /: 'str' and 'str'".
Definition KeyError (key : string) : exn :=
  Exn "KeyError" ("'" ++ key ++ "'")%string.

(* ------------------------------------------------------------------ *)
(** ** Data frames *)

Section Pandas.

Context {num : Type} {F : Float64 num}.

(** A float64 cell; [None] is NaN, the missing value. *)
Local Abbreviation cell := (option num).

Inductive column : Type :=
| Float64Col (v : list cell)
| ObjectCol (v : list string).

(** A frame is column oriented: the date index and the named columns in
    insertion order. *)
Record DataFrame : Type := mkDataFrame {
  index : list string;
  columns : list (string * column)
}.

Definition nrows (df : DataFrame) : nat := length (index df).

(** [df[name]] *)
Fixpoint lookup (name : string) (cols : list (string * column)) : option column :=
  match cols with
  | [] => None
  | (n, c) :: rest => if String.eqb n name then Some c else lookup name rest
  end.

Definition getitem (df : DataFrame) (name : string) : result column :=
  match lookup name (columns df) with
  | Some c => Ok c
  | None => Raise (KeyError name)
  end.

(** [df[name] = col]: an existing column is replaced where it stands, a new
    one is appended. *)
Fixpoint assign (name : string) (col : column) (cols : list (string * column))
  : list (string * column) :=
  match cols with
  | [] => [(name, col)]
  | (n, c) :: rest =>
      if String.eqb n name then (name, col) :: rest
      else (n, c) :: assign name col rest
  end.

Definition setitem (df : DataFrame) (name : string) (col : column) : DataFrame :=
  mkDataFrame (index df) (assign name col (columns df)).

(** The float columns of a frame; arithmetic on an object column raises.
    (Dividing a column of strings by itself one row down fails where two
    strings meet, which takes at least two rows; the model lets it fail
    for every column of strings.) *)
Fixpoint float_columns (cols : list (string * column))
  : result (list (string * list cell)) :=
  match cols with
  | [] => Ok []
  | (n, Float64Col v) :: rest =>
      rbind (float_columns rest) (fun r => Ok ((n, v) :: r))
  | (_, ObjectCol _) :: _ => Raise TypeError
  end.

Definition as_float (c : column) : result (list cell) :=
  match c with
  | Float64Col v => Ok v
  | ObjectCol _ => Raise TypeError
  end.

(* ------------------------------------------------------------------ *)
(** ** [DataFrame.pct_change] *)

(** The [fill_method] argument.  The script passes none; the default is
    ['pad'] up to pandas 2.x and [None] from pandas 3.0. *)
Inductive fill_method : Type := Pad | NoFill.

(** [ffill]: a missing cell takes the last defined value above it. *)
Fixpoint ffill_from (last : cell) (v : list cell) : list cell :=
  match v with
  | [] => []
  | c :: rest =>
      let c' := match c with Some _ => c | None => last end in
      c' :: ffill_from c' rest
  end.

Definition ffill (v : list cell) : list cell := ffill_from None v.

(** [shift(1)]: every value moves one row down, the first row is missing. *)
Definition shift (v : list cell) : list cell := firstn (length v) (None :: v).

Definition lift2 (op : num -> num -> num) (a b : cell) : cell :=
  match a, b with
  | Some x, Some y => Some (op x y)
  | _, _ => None
  end.

(** A result that is NaN is a missing value like any other. *)
Definition nan_to_missing (c : cell) : cell :=
  match c with
  | Some x => if f_isnan x then None else Some x
  | None => None
  end.

(** [rs = data / shifted - 1] on one column. *)
Definition pct_change_col (fm : fill_method) (v : list cell) : list cell :=
  let data := match fm with Pad => ffill v | NoFill => v end in
  map (fun ds =>
         nan_to_missing (lift2 f_sub (lift2 f_div (fst ds) (snd ds)) (Some f_one)))
      (combine data (shift data)).

(** The return columns, as plain value lists. *)
Definition returns (fm : fill_method) (cols : list (string * list cell))
  : list (string * list cell) :=
  map (fun nc => (fst nc, pct_change_col fm (snd nc))) cols.

Definition pct_change (fm : fill_method) (df : DataFrame) : result DataFrame :=
  rbind (float_columns (columns df)) (fun cols =>
  Ok (mkDataFrame (index df)
        (map (fun nc => (fst nc, Float64Col (pct_change_col fm (snd nc)))) cols))).

(* ------------------------------------------------------------------ *)
(** ** [DataFrame.std(axis=1)]: pandas' [nanops.nanstd], [skipna=True] *)

Definition notna (c : cell) : bool :=
  match c with Some _ => true | None => false end.

Definition fillna0 (c : cell) : num :=
  match c with Some x => x | None => f_zero end.

(** numpy's pairwise summation, [n] being the number of values: fewer than
    8 are added one after the other; up to 128 go through eight running
    sums, the values left over being added at the end; more are split in
    two halves, the first a multiple of 8 long. *)
Fixpoint pairwise_block (r0 r1 r2 r3 r4 r5 r6 r7 : num) (a : list num) : num :=
  match a with
  | a0 :: a1 :: a2 :: a3 :: a4 :: a5 :: a6 :: a7 :: rest =>
      pairwise_block (f_add r0 a0) (f_add r1 a1) (f_add r2 a2) (f_add r3 a3)
                     (f_add r4 a4) (f_add r5 a5) (f_add r6 a6) (f_add r7 a7) rest
  | tail =>
      fold_left f_add tail
        (f_add (f_add (f_add r0 r1) (f_add r2 r3))
               (f_add (f_add r4 r5) (f_add r6 r7)))
  end.

Fixpoint pairwise_sum (fuel : nat) (a : list num) : num :=
  let n := length a in
  if n <? 8 then fold_left f_add a f_zero
  else if n <=? 128 then
    match a with
    | a0 :: a1 :: a2 :: a3 :: a4 :: a5 :: a6 :: a7 :: rest =>
        pairwise_block a0 a1 a2 a3 a4 a5 a6 a7 rest
    | _ => fold_left f_add a f_zero
    end
  else
    match fuel with
    | O => fold_left f_add a f_zero
    | S fuel' =>
        let n2 := n / 2 - (n / 2) mod 8 in
        f_add (pairwise_sum fuel' (firstn n2 a)) (pairwise_sum fuel' (skipn n2 a))
    end.

(** [values.sum(axis=1)] for one row: the identity 0 plus the pairwise sum. *)
Definition fsum (l : list num) : num :=
  f_add f_zero (pairwise_sum (length l) l).

(** Two-pass variance over the masked row: the count of defined values,
    their mean, the squared deviations with the masked entries set to 0,
    divided by [count - ddof]; missing when [count <= ddof]. *)
Definition nanvar (ddof : nat) (row : list cell) : cell :=
  let count := length (filter notna row) in
  if count <=? ddof then None
  else
    let avg := f_div (fsum (map fillna0 row)) (f_of_nat count) in
    let sqr := map (fun c => match c with
                             | Some x => f_mul (f_sub avg x) (f_sub avg x)
                             | None => f_zero
                             end) row in
    Some (f_div (fsum sqr) (f_of_nat (count - ddof))).

Definition nanstd (ddof : nat) (row : list cell) : cell :=
  nan_to_missing (option_map f_sqrt (nanvar ddof row)).

(** Row [i] across the given columns. *)
Definition row_at (cols : list (string * list cell)) (i : nat) : list cell :=
  map (fun nc => nth i (snd nc) None) cols.

(** [df.std(axis=1)], [ddof=1]: one value per index entry. *)
Definition std_axis1 (df : DataFrame) : result (list cell) :=
  rbind (float_columns (columns df)) (fun cols =>
  Ok (map (fun i => nanstd 1 (row_at cols i)) (seq 0 (nrows df)))).

(* ------------------------------------------------------------------ *)
(** ** [Series.median]: [nanmedian], missing values dropped *)

Fixpoint dropna (v : list cell) : list num :=
  match v with
  | [] => []
  | Some x :: rest => x :: dropna rest
  | None :: rest => dropna rest
  end.

Fixpoint insert (x : num) (l : list num) : list num :=
  match l with
  | [] => [x]
  | y :: rest => if f_lt x y then x :: y :: rest else y :: insert x rest
  end.

Definition sort (l : list num) : list num := fold_right insert [] l.

(** [np.median] of the sorted values: the middle one, or the mean of the two
    middle ones; missing when nothing is defined. *)
Definition median_sorted (s : list num) : cell :=
  let n := length s in
  if n =? 0 then None
  else if Nat.even n
       then Some (f_div (f_add (nth (n / 2 - 1) s f_zero) (nth (n / 2) s f_zero))
                        (f_of_nat 2))
       else Some (nth (n / 2) s f_zero).

Definition median (v : list cell) : cell :=
  nan_to_missing (median_sorted (sort (dropna v))).

(* ------------------------------------------------------------------ *)
(** ** Comparison and [np.where] *)

(** [series > scalar]: False wherever either side is missing. *)
Definition gt (v : list cell) (m : cell) : list bool :=
  map (fun c => match c, m with
                | Some x, Some t => f_lt t x
                | _, _ => false
                end) v.

Definition np_where {A : Type} (cond : list bool) (a b : A) : list A :=
  map (fun c : bool => if c then a else b) cond.

(** [series == scalar] on an object column. *)
Definition eq_str (v : list string) (s : string) : list bool :=
  map (fun x => String.eqb x s) v.

End Pandas.

(* ------------------------------------------------------------------ *)
(** ** The world the script runs in *)

(** What the report object's [show_html] writes to the terminal, besides
    saving the file: sweetviz announces the file it has written. *)
Class Sweetviz : Type := {
  show_html_prints : string -> list string
}.

Section Script.

Context {num : Type} {F : Float64 num} {SV : Sweetviz}.
Local Abbreviation cell := (option num).

(** What [yf.download] hands back: a frame whose columns are grouped by
    price field (['Open'], ['Close'], ['Adj Close'], ...), one sub-column
    per ticker. *)
Record RawData : Type := mkRawData {
  raw_index : list string;
  raw_fields : list (string * list (string * column (num := num)))
}.

(** [data.empty]: some axis has length 0. *)
Definition raw_empty (data : RawData) : bool :=
  (length (raw_index data) =? 0)
  || (length (concat (map snd (raw_fields data))) =? 0).

Fixpoint raw_lookup (field : string)
    (fs : list (string * list (string * column (num := num))))
  : option (list (string * column)) :=
  match fs with
  | [] => None
  | (n, cols) :: rest => if String.eqb n field then Some cols else raw_lookup field rest
  end.

(** [data[field]] *)
Definition raw_getitem (data : RawData) (field : string) : result DataFrame :=
  match raw_lookup field (raw_fields data) with
  | Some cols => Ok (mkDataFrame (raw_index data) cols)
  | None => Raise (KeyError field)
  end.

(** The external collaborators: the market-data client and the report
    generator.  [default_fill_method] is the installed pandas' default for
    [pct_change]. *)
Variable Report : Type.
Variable yf_download : list string -> string -> string -> result RawData.
Variable sv_analyze : DataFrame (num := num) -> result Report.
Variable sv_compare_intra :
  DataFrame (num := num) -> list bool -> list string -> result Report.
Variable default_fill_method : fill_method.

(** Frames are Python objects: a variable holds a reference into the heap. *)
Definition ref : Type := nat.

Record world : Type := mkWorld {
  heap : list (DataFrame (num := num));
  files : list (string * Report);      (* written report artifacts *)
  stdout : list string                 (* one entry per [print] *)
}.

(** State and exceptions. *)
Definition M (A : Type) : Type := world -> result A * world.

Definition ret {A} (a : A) : M A := fun w => (Ok a, w).

Definition bind {A B} (m : M A) (k : A -> M B) : M B :=
  fun w => match m w with
           | (Ok a, w') => k a w'
           | (Raise e, w') => (Raise e, w')
           end.

Definition lift {A} (r : result A) : M A := fun w => (r, w).

(** [try: m except Exception as e: h e]; what does not derive from
    [Exception] passes through. *)
Definition try_except {A} (m : M A) (h : exn -> M A) : M A :=
  fun w => match m w with
           | (Ok a, w') => (Ok a, w')
           | (Raise e, w') => if is_Exception e then h e w' else (Raise e, w')
           end.

Notation "x <- m ;; k" := (bind m (fun x => k))
  (at level 61, m at next level, right associativity).
Notation "m ;;; k" := (bind m (fun _ => k))
  (at level 61, right associativity).

Definition print (s : string) : M unit :=
  fun w => (Ok tt, mkWorld (heap w) (files w) (stdout w ++ [s])).

Definition write_file (filename : string) (r : Report) : M unit :=
  fun w => (Ok tt, mkWorld (heap w) (files w ++ [(filename, r)]) (stdout w)).

(** A new object. *)
Definition new (d : DataFrame) : M ref :=
  fun w => (Ok (length (heap w)), mkWorld (heap w ++ [d]) (files w) (stdout w)).

Definition load (r : ref) : M DataFrame :=
  fun w => match nth_error (heap w) r with
           | Some d => (Ok d, w)
           | None => (Raise (Exn "ReferenceError" "dangling reference"), w)
           end.

Fixpoint heap_set (r : ref) (d : DataFrame (num := num)) (h : list DataFrame)
  : list DataFrame :=
  match h, r with
  | [], _ => []
  | _ :: t, O => d :: t
  | x :: t, S r' => x :: heap_set r' d t
  end.

(** [df[name] = col] on the object behind [r]. *)
Definition setitem_at (r : ref) (name : string) (col : column) : M unit :=
  d <- load r ;;
  fun w => (Ok tt, mkWorld (heap_set r (setitem d name col) (heap w))
                           (files w) (stdout w)).

Definition nl : string := String (Ascii.ascii_of_nat 10) EmptyString.

(* ------------------------------------------------------------------ *)
(** ** The script's functions *)

(** Lines 60-80. *)
Definition fetch_stock_data (stocks : list string) (start end_ : string)
  : M (option ref) :=
  try_except
    (data <- lift (yf_download stocks start end_) ;;
     if raw_empty data then
       print "Error: No data found. Please check stock tickers and date range." ;;;
       ret None
     else
       adj <- lift (raw_getitem data "Adj Close") ;;
       r <- new adj ;;                                   (* .copy() *)
       ret (Some r))
    (fun e =>
       print ("Error fetching stock data: " ++ exn_str e)%string ;;;
       ret None).


Definition print_lines (lines : list string) : M unit :=
  fun w => (Ok tt, mkWorld (heap w) (files w) (stdout w ++ lines)).

Definition show_html (report : Report) (filename : string) : M unit :=
  write_file filename report ;;;
  print_lines (show_html_prints filename).

(** Lines 83-93. *)
Definition generate_sweetviz_report (df : ref) (filename : string) : M unit :=
  d <- load df ;;
  report <- lift (sv_analyze d) ;;
  show_html report filename ;;;
  print ("Sweetviz report generated: " ++ filename)%string.

(** The right-hand side of line 104, [df.pct_change().std(axis=1)]. *)
Definition volatility (d : DataFrame) : result (list cell) :=
  rbind (pct_change default_fill_method d) std_axis1.

(** Lines 104-106: the score, the threshold and the label, each assigned
    into the caller's frame. *)
Definition classify_volatility (df : ref) : M unit :=
  d <- load df ;;
  vol <- lift (volatility d) ;;
  setitem_at df "Volatility" (Float64Col vol) ;;;
  d <- load df ;;
  c <- lift (getitem d "Volatility") ;;
  v <- lift (as_float c) ;;
  let median_vol := median v in
  d <- load df ;;
  c <- lift (getitem d "Volatility") ;;
  v <- lift (as_float c) ;;
  setitem_at df "Volatility_Level"
    (ObjectCol (np_where (gt v median_vol) "High Volatility" "Low Volatility")).

(** The frame lines 104-106 leave behind, given the score column. *)
Definition labelled (d : DataFrame) (vol : list cell) : DataFrame :=
  setitem (setitem d "Volatility" (Float64Col vol)) "Volatility_Level"
    (ObjectCol (np_where (gt vol (median vol)) "High Volatility" "Low Volatility")).

(** [df["Volatility_Level"] == "High Volatility"] *)
Definition eq_scalar (c : column (num := num)) (s : string) : list bool :=
  match c with
  | ObjectCol v => eq_str v s
  | Float64Col v => map (fun _ => false) v
  end.

(** Reading the derived columns back: [df['Volatility']],
    [df['Volatility_Level']] and the partition vector of line 108. *)
Definition scores_of (d : DataFrame) : list cell :=
  match lookup "Volatility" (columns d) with
  | Some (Float64Col v) => v
  | _ => []
  end.

Definition labels_of (d : DataFrame (num := num)) : list string :=
  match lookup "Volatility_Level" (columns d) with
  | Some (ObjectCol v) => v
  | _ => []
  end.

Definition partition_of (d : DataFrame (num := num)) : list bool :=
  match lookup "Volatility_Level" (columns d) with
  | Some c => eq_scalar c "High Volatility"
  | None => []
  end.

(** Lines 96-110. *)
Definition generate_volatility_comparison (df : ref) (filename : string) : M unit :=
  classify_volatility df ;;;
  d <- load df ;;
  lvl <- lift (getitem d "Volatility_Level") ;;
  report <- lift (sv_compare_intra d (eq_scalar lvl "High Volatility")
                    ["High Volatility"; "Low Volatility"]) ;;
  show_html report filename ;;;
  print ("Sweetviz volatility comparison report generated: " ++ filename)%string.

(** The two ways the run can end (lines 129 and 131). *)
Inductive terminal : Type := Success | Failed.

(** Lines 27-57.  The prompt loop is represented by its outcome: the lines
    it wrote to the terminal while asking (prompts, error notices) and the
    validated triple it returned.  A dialogue that never ends has no
    outcome. *)
Definition get_user_input (dialogue : list string)
    (answer : list string * string * string)
  : M (list string * string * string) :=
  fun w => (Ok answer, mkWorld (heap w) (files w) (stdout w ++ dialogue)).

(** Lines 113-131. *)
Definition main (dialogue : list string) (answer : list string * string * string)
  : M terminal :=
  print "Welcome to the Stock Data Analysis Tool!" ;;;
  input <- get_user_input dialogue answer ;;
  let '(stocks, start_date, end_date) := input in
  print (nl ++ "Fetching stock data...")%string ;;;
  df <- fetch_stock_data stocks start_date end_date ;;
  match df with
  | Some df =>
      print (nl ++ "Generating general Sweetviz report...")%string ;;;
      generate_sweetviz_report df "sweetviz_report.html" ;;;
      print (nl ++ "Generating volatility comparison report...")%string ;;;
      generate_volatility_comparison df "sweetviz_volatility_report.html" ;;;
      print (nl ++ "All reports have been successfully generated.")%string ;;;
      ret Success
  | None =>
      print (nl ++ "Failed to retrieve stock data. Please check your inputs and try again.")%string ;;;
      ret Failed
  end.

(** The lines a run has printed when it starts on the general report. *)
Definition preamble (dialogue : list string) : list string :=
  ["Welcome to the Stock Data Analysis Tool!"] ++ dialogue ++
  [(nl ++ "Fetching stock data...")%string;
   (nl ++ "Generating general Sweetviz report...")%string].

End Script.


(* ------------------------------------------------------------------ *)
(** ** The prompt loop, line by line *)

Section Prompt.

(** Python's [str.upper] and [str.strip], and whether
    [datetime.strptime(s, "%Y-%m-%d")] returns instead of raising
    ValueError. *)
Variable str_upper : string -> string.
Variable str_strip : string -> string.
Variable strptime_ok : string -> bool.

(** [input()] at the end of the input. *)
Definition EOFError : exn := Exn "EOFError" "EOF when reading a line".

(** [s.split(",")] *)
Fixpoint split_comma (s : string) : list string :=
  match s with
  | EmptyString => [EmptyString]
  | String c rest =>
      if Ascii.eqb c ","%char then EmptyString :: split_comma rest
      else match split_comma rest with
           | [] => [String c EmptyString]
           | piece :: pieces => String c piece :: pieces
           end
  end.

(** Lines 38-39: the pieces of the upper-cased line that are not blank,
    stripped. *)
Definition tickers_of (line : string) : list string :=
  map str_strip
    (filter (fun s => negb (String.eqb (str_strip s) ""))
       (split_comma (str_upper line))).

Definition ticker_prompt : string :=
  "Enter stock tickers separated by commas (e.g., AAPL,GOOG,MSFT): ".
Definition start_prompt : string := "Enter start date (YYYY-MM-DD): ".
Definition end_prompt : string := "Enter end date (YYYY-MM-DD): ".

(** Lines 36-57 over the lines still to be read from standard input.  The
    result comes with the lines left unread and everything written to the
    terminal: [input] writes its prompt, then reads a line or raises
    EOFError when there is none. *)
Fixpoint prompt_loop (stdin : list string) (out : list string)
  : result (list string * string * string) * list string * list string :=
  match stdin with
  | [] => (Raise EOFError, [], out ++ [ticker_prompt])
  | line :: rest =>
      match tickers_of line with
      | [] =>
          prompt_loop rest
            (out ++ [ticker_prompt;
                     "Error: You must enter at least one stock ticker."])
      | stocks =>
          match rest with
          | [] => (Raise EOFError, [], out ++ [ticker_prompt; start_prompt])
          | s :: rest1 =>
              match rest1 with
              | [] =>
                  (Raise EOFError, [],
                   out ++ [ticker_prompt; start_prompt; end_prompt])
              | e :: rest2 =>
                  let start_date := str_strip s in
                  let end_date := str_strip e in
                  if strptime_ok start_date && strptime_ok end_date
                  then (Ok (stocks, start_date, end_date), rest2,
                        out ++ [ticker_prompt; start_prompt; end_prompt])
                  else
                    prompt_loop rest2
                      (out ++ [ticker_prompt; start_prompt; end_prompt;
                               "Error: Invalid date format. Please enter dates in YYYY-MM-DD format."])
              end
          end
      end
  end.

End Prompt.


(* ------------------------------------------------------------------ *)
(** ** Sample tables *)

Module Example.

(** Two tickers, four trading days, no gaps. *)
Definition prices : DataFrame (num := float) :=
  mkDataFrame ["2024-01-02"; "2024-01-03"; "2024-01-04"; "2024-01-05"]
    [("AAPL", Float64Col [Some 100%float; Some 101%float; Some 99%float; Some 102%float]);
     ("MSFT", Float64Col [Some 200%float; Some 204%float; Some 202%float; Some 210%float])].

(** One ticker only. *)
Definition one_ticker : DataFrame (num := float) :=
  mkDataFrame ["2024-01-02"; "2024-01-03"; "2024-01-04"]
    [("AAPL", Float64Col [Some 100%float; Some 101%float; Some 99%float])].

(** Three tickers with a gap in the middle of one of them. *)
Definition gappy : DataFrame (num := float) :=
  mkDataFrame ["2024-01-02"; "2024-01-03"; "2024-01-04"; "2024-01-05"]
    [("AAPL", Float64Col [Some 100%float; Some 101%float; Some 99%float; Some 102%float]);
     ("GOOG", Float64Col [Some 50%float; None; Some 52%float; Some 51%float]);
     ("MSFT", Float64Col [Some 200%float; Some 204%float; Some 202%float; Some 210%float])].

(** A world holding one frame at reference 0, nothing written or printed. *)
Definition world_of (d : DataFrame (num := float)) : world unit :=
  mkWorld [d] [] [].

(** Lines 104-106 on that frame. *)
Definition run (fm : fill_method) (d : DataFrame (num := float))
  : result unit * world unit :=
  classify_volatility fm 0 (world_of d).

Definition frame_after (fm : fill_method) (d : DataFrame (num := float))
  : option DataFrame :=
  nth_error (heap (snd (run fm d))) 0.

(** The caller's frame once lines 104-106 have run. *)
Definition after (fm : fill_method) (d : DataFrame (num := float)) : DataFrame :=
  match frame_after fm d with
  | Some d' => d'
  | None => d
  end.

(** A column of [df.pct_change()], by name. *)
Definition lookup_returns (fm : fill_method) (d : DataFrame (num := float))
    (name : string) : option (list (option float)) :=
  match pct_change fm d with
  | Ok rs => match lookup name (columns rs) with
             | Some (Float64Col v) => Some v
             | _ => None
             end
  | Raise _ => None
  end.

(** The notice of sweetviz 2. *)
#[export] Instance sweetviz_notice : Sweetviz := {
  show_html_prints := fun filename =>
    [("Report " ++ filename ++ " was generated! NOTEBOOK/COLAB USERS: the web browser MAY not pop up, regardless, the report IS saved in your notebook/colab files.")%string]
}.


(** A provider that returns closes and adjusted closes of [prices]. *)
Definition with_data (stocks : list string) (start end_ : string)
  : result (RawData (num := float)) :=
  Ok (mkRawData (index prices)
        [("Adj Close", columns prices); ("Close", columns prices)]).

(** Stand-ins for [str.upper], [str.strip] and the date check on plain
    ASCII text: the letters a-z are raised, blanks and tabs are stripped at
    both ends, and a date is checked for the shape dddd-dd-dd only. *)
Definition upper_char (c : ascii) : ascii :=
  let n := nat_of_ascii c in
  if (97 <=? n) && (n <=? 122) then ascii_of_nat (n - 32) else c.

Fixpoint upper (s : string) : string :=
  match s with
  | EmptyString => EmptyString
  | String c rest => String (upper_char c) (upper rest)
  end.

Definition is_blank (c : ascii) : bool :=
  (nat_of_ascii c =? 32) || (nat_of_ascii c =? 9).

Fixpoint drop_blank (l : list ascii) : list ascii :=
  match l with
  | c :: rest => if is_blank c then drop_blank rest else l
  | [] => []
  end.

Definition strip (s : string) : string :=
  string_of_list_ascii
    (rev (drop_blank (rev (drop_blank (list_ascii_of_string s))))).

Definition is_digit (c : ascii) : bool :=
  (48 <=? nat_of_ascii c) && (nat_of_ascii c <=? 57).

Definition is_dash (c : ascii) : bool := nat_of_ascii c =? 45.

Definition date_shaped (s : string) : bool :=
  match list_ascii_of_string s with
  | [y1; y2; y3; y4; a; m1; m2; b; d1; d2] =>
      forallb is_digit [y1; y2; y3; y4; m1; m2; d1; d2] && is_dash a && is_dash b
  | _ => false
  end.

(** What a user types: a blank line, a round with a bad date, a good
    round. *)
Definition typed : list string :=
  [" , "; "aapl,msft"; "2024-01-01"; "soon";
   "aapl, msft"; " 2024-01-01"; "2024-01-10 "].

(** A provider that returns the one-ticker table. *)
Definition with_one_ticker (stocks : list string) (start end_ : string)
  : result (RawData (num := float)) :=
  Ok (mkRawData (index one_ticker) [("Adj Close", columns one_ticker)]).

(** A report generator that refuses everything, and a comparison that
    refuses a group without rows. *)
Definition refuse (d : DataFrame (num := float)) : result nat :=
  Raise (Exn "ValueError" "nothing to analyze").

Definition strict_compare (d : DataFrame (num := float)) (cond : list bool)
    (names : list string) : result nat :=
  if existsb (fun b : bool => b) cond && existsb negb cond
  then Ok (length (filter (fun b : bool => b) cond))
  else Raise (Exn "ValueError" "nothing to compare").


(** Three tickers; the second and the fourth day hold the same three
    returns, two of them in exchanged columns.  [reordered] is the same
    table with the last two columns exchanged. *)
Definition aaa : list (option float) :=
  [Some 64%float; Some 65%float; Some 64%float; Some 65%float].
Definition bbb : list (option float) :=
  [Some 64%float; Some 66%float; Some 64%float; Some 68%float].
Definition ccc : list (option float) :=
  [Some 64%float; Some 68%float; Some 64%float; Some 66%float].

Definition ordered : DataFrame (num := float) :=
  mkDataFrame ["2024-01-02"; "2024-01-03"; "2024-01-04"; "2024-01-05"]
    [("AAA", Float64Col aaa); ("BBB", Float64Col bbb); ("CCC", Float64Col ccc)].

Definition reordered : DataFrame (num := float) :=
  mkDataFrame ["2024-01-02"; "2024-01-03"; "2024-01-04"; "2024-01-05"]
    [("AAA", Float64Col aaa); ("CCC", Float64Col ccc); ("BBB", Float64Col bbb)].

(** Three tickers that all rise from 3 to 5 on the second day. *)
Definition rising : list (option float) := [Some 3%float; Some 5%float].

Definition movers : DataFrame (num := float) :=
  mkDataFrame ["2024-01-02"; "2024-01-03"]
    [("AAA", Float64Col rising); ("BBB", Float64Col rising); ("CCC", Float64Col rising)].

(** The GOOG column of [gappy]. *)
Definition goog : list (option float) :=
  [Some 50%float; None; Some 52%float; Some 51%float].

(** The three prompts of one dialogue answered well at once. *)
Definition dialogue : list string :=
  ["Enter stock tickers separated by commas (e.g., AAPL,GOOG,MSFT): ";
   "Enter start date (YYYY-MM-DD): ";
   "Enter end date (YYYY-MM-DD): "].

Definition count_rows (d : DataFrame (num := float)) : result nat :=
  Ok (nrows d).

Definition count_high (d : DataFrame (num := float)) (cond : list bool)
    (names : list string) : result nat :=
  Ok (length (filter (fun b : bool => b) cond)).

End Example.

(** The two-ticker table again, over exact numbers, and with its columns
    in the other order. *)
Module ExactExample.

Definition dates : list string :=
  ["2024-01-02"; "2024-01-03"; "2024-01-04"; "2024-01-05"].

Definition aapl : list (option R) := [Some 100%R; Some 101%R; Some 99%R; Some 102%R].
Definition msft : list (option R) := [Some 200%R; Some 204%R; Some 202%R; Some 210%R].

Definition prices : DataFrame (num := R) :=
  mkDataFrame dates [("AAPL", Float64Col aapl); ("MSFT", Float64Col msft)].

Definition swapped : DataFrame (num := R) :=
  mkDataFrame dates [("MSFT", Float64Col msft); ("AAPL", Float64Col aapl)].

Definition world0 : world unit := mkWorld [prices] [] [].

(** The return frame and the score column of [prices]. *)
Definition rets (fm : fill_method) : DataFrame (num := R) :=
  mkDataFrame dates
    [("AAPL", Float64Col (pct_change_col fm aapl));
     ("MSFT", Float64Col (pct_change_col fm msft))].

Definition scores (fm : fill_method) : list (option R) :=
  map (fun i => nanstd 1 (row_at (returns fm [("AAPL", aapl); ("MSFT", msft)]) i))
      (seq 0 4).

Definition classified (fm : fill_method) : DataFrame (num := R) :=
  labelled prices (scores fm).

Definition world1 (fm : fill_method) : world unit :=
  mkWorld [classified fm] [] [].

(** The first two days only. *)
Definition two_days : DataFrame (num := R) :=
  mkDataFrame ["2024-01-02"; "2024-01-03"]
    [("AAPL", Float64Col [Some 100%R; Some 101%R]);
     ("MSFT", Float64Col [Some 200%R; Some 204%R])].

Definition two_days_scores (fm : fill_method) : list (option R) :=
  map (fun i => nanstd 1 (row_at (returns fm [("AAPL", [Some 100%R; Some 101%R]);
                                              ("MSFT", [Some 200%R; Some 204%R])]) i))
      (seq 0 2).

Definition two_days_classified (fm : fill_method) : DataFrame (num := R) :=
  labelled two_days (two_days_scores fm).

Definition two_days_score (fm : fill_method) : R :=
  match nth 1 (two_days_scores fm) None with
  | Some s => s
  | None => 0%R
  end.

(** A column with a gap after its first price. *)
Definition gap_column : list (option R) := [Some 50%R; None; Some 52%R].

(** Three days on which the spread of the two returns doubles: the returns
    are 1% and 2% on the second day, 1% and 3% on the third. *)
Definition widening_cols : list (string * list (option R)) :=
  [("AAPL", [Some 100%R; Some 101%R; Some (10201 / 100)%R]);
   ("MSFT", [Some 100%R; Some 102%R; Some (10506 / 100)%R])].

Definition widening : DataFrame (num := R) :=
  mkDataFrame ["2024-01-02"; "2024-01-03"; "2024-01-04"]
    (map (fun nc => (fst nc, Float64Col (snd nc))) widening_cols).

Definition widening_scores (fm : fill_method) : list (option R) :=
  map (fun i => nanstd 1 (row_at (returns fm widening_cols) i)) (seq 0 3).

Definition widening_classified (fm : fill_method) : DataFrame (num := R) :=
  labelled widening (widening_scores fm).

(** Three days on which the two returns are 1% and 2% both times. *)
Definition steady_cols : list (string * list (option R)) :=
  [("AAPL", [Some 100%R; Some 101%R; Some (10201 / 100)%R]);
   ("MSFT", [Some 100%R; Some 102%R; Some (10404 / 100)%R])].

Definition steady : DataFrame (num := R) :=
  mkDataFrame ["2024-01-02"; "2024-01-03"; "2024-01-04"]
    (map (fun nc => (fst nc, Float64Col (snd nc))) steady_cols).

Definition steady_scores (fm : fill_method) : list (option R) :=
  map (fun i => nanstd 1 (row_at (returns fm steady_cols) i)) (seq 0 3).

Definition steady_classified (fm : fill_method) : DataFrame (num := R) :=
  labelled steady (steady_scores fm).

(** The scores of the specification's worked example. *)
Definition spec_scores : list (option R) :=
  [Some 0.01%R; Some 0.02%R; Some 0.03%R; Some 0.04%R].

(** The score of the second row. *)
Definition score1 (fm : fill_method) : R :=
  match nth 1 (scores fm) None with
  | Some s => s
  | None => 0%R
  end.

End ExactExample.

(* ------------------------------------------------------------------ *)
(** ** The statistics in the words of the specification *)

Module Spec.

Local Open Scope R_scope.

Definition sum (xs : list R) : R := fold_right Rplus 0 xs.

Definition mean (xs : list R) : R := sum xs / INR (length xs).

(** The sample standard deviation, delta degrees of freedom 1: the squared
    deviations from the mean are summed and divided by N - 1.  It is
    undefined for fewer than two values. *)
Definition sample_std (xs : list R) : option R :=
  if (length xs <=? 1)%nat then None
  else Some (R_sqrt.sqrt (sum (map (fun x => (x - mean xs) ^ 2) xs)
                          / (INR (length xs) - 1))).

(** The median of values given in ascending order: the middle one, or,
    when their number is even, the average of the two middle ones. *)
Definition median_of_sorted (sorted : list R) : R :=
  let n := length sorted in
  if Nat.even n
  then (nth (n / 2 - 1) sorted 0 + nth (n / 2) sorted 0) / 2
  else nth (n / 2) sorted 0.

(** The values strictly above a bound. *)
Definition above (t : R) (l : list R) : list R := filter (fun x => Rltb t x) l.

End Spec.
(* ------------------------------------------------------------------ *)
(** ** Running the classifier *)

Unset Implicit Arguments.

Section Classifier.

Context {num : Type} {F : Float64 num}.
Variable Report : Type.
Variable fm : fill_method.

Local Abbreviation cell := (option num).
Local Abbreviation DF := (DataFrame (num := num)).
Local Abbreviation World := (world (num := num) Report).

Lemma lookup_assign_same (name : string) (c : column (num := num)) cols :
  lookup name (assign name c cols) = Some c.
Proof.
  induction cols as [|[n c0] rest IH]; simpl.
  - now rewrite String.eqb_refl.
  - destruct (String.eqb n name) eqn:E; simpl.
    + now rewrite String.eqb_refl.
    + now rewrite E.
Qed.

Lemma lookup_assign_other (name other : string) (c : column (num := num)) cols :
  other <> name -> lookup other (assign name c cols) = lookup other cols.
Proof.
  intros Hne. induction cols as [|[n c0] rest IH]; simpl.
  - destruct (String.eqb name other) eqn:E; [|reflexivity].
    apply String.eqb_eq in E. congruence.
  - destruct (String.eqb n name) eqn:E; simpl.
    + apply String.eqb_eq in E. subst n.
      destruct (String.eqb name other) eqn:E2; [|reflexivity].
      apply String.eqb_eq in E2. congruence.
    + now rewrite IH.
Qed.

Lemma heap_set_length r (d : DF) h : length (heap_set r d h) = length h.
Proof.
  revert r. induction h as [|x t IH]; intros [|r]; simpl; auto.
Qed.

Lemma heap_set_same r (d d0 : DF) h :
  nth_error h r = Some d0 -> nth_error (heap_set r d h) r = Some d.
Proof.
  revert r. induction h as [|x t IH]; intros [|r]; simpl; try discriminate; auto.
Qed.

Lemma heap_set_other r r' (d : DF) h :
  r' <> r -> nth_error (heap_set r d h) r' = nth_error h r'.
Proof.
  revert r r'. induction h as [|x t IH]; intros [|r] [|r'] Hne; simpl; auto.
  congruence.
Qed.

Lemma heap_set_twice r (d1 d2 : DF) h :
  heap_set r d2 (heap_set r d1 h) = heap_set r d2 h.
Proof.
  revert r. induction h as [|x t IH]; intros [|r]; simpl; auto.
  now rewrite IH.
Qed.

(** Lines 104-106 in one step: if line 104 raises, nothing was touched;
    otherwise the caller's frame has become [labelled d vol]. *)
Lemma classify_volatility_run (r : ref) (w : World) (d : DF) :
  nth_error (heap w) r = Some d ->
  classify_volatility fm r w =
    match volatility fm d with
    | Ok vol => (Ok tt, mkWorld (heap_set r (labelled d vol) (heap w))
                               (files w) (stdout w))
    | Raise e => (Raise e, w)
    end.
Proof.
  intros Hd.
  unfold classify_volatility, bind, load, lift, setitem_at, bind, load.
  rewrite Hd.
  destruct (volatility fm d) as [vol|e]; [|reflexivity].
  rewrite Hd. simpl.
  erewrite heap_set_same by exact Hd.
  unfold getitem. simpl. rewrite lookup_assign_same. simpl.
  erewrite heap_set_same by exact Hd. simpl.
  rewrite lookup_assign_same. simpl.
  erewrite heap_set_same by exact Hd. simpl.
  now rewrite heap_set_twice.
Qed.

(** What a successful run of lines 104-106 did. *)
Lemma classify_volatility_ok (r : ref) (w w' : World) (d : DF) :
  nth_error (heap w) r = Some d ->
  classify_volatility fm r w = (Ok tt, w') ->
  exists vol,
    volatility fm d = Ok vol /\
    w' = mkWorld (heap_set r (labelled d vol) (heap w)) (files w) (stdout w) /\
    nth_error (heap w') r = Some (labelled d vol).
Proof.
  intros Hd Hrun. rewrite (classify_volatility_run _ _ _ Hd) in Hrun.
  destruct (volatility fm d) as [vol|e]; [|discriminate].
  exists vol. injection Hrun as <-. repeat split.
  simpl. eapply heap_set_same; eauto.
Qed.

Lemma labelled_levels (d : DF) vol :
  lookup "Volatility_Level" (columns (labelled d vol)) =
  Some (ObjectCol (np_where (gt vol (median vol)) "High Volatility" "Low Volatility")).
Proof. unfold labelled, setitem; simpl. apply lookup_assign_same. Qed.

Lemma labelled_scores (d : DF) vol :
  lookup "Volatility" (columns (labelled d vol)) = Some (Float64Col vol).
Proof.
  unfold labelled, setitem; simpl.
  rewrite lookup_assign_other by discriminate. apply lookup_assign_same.
Qed.

End Classifier.

(* ------------------------------------------------------------------ *)
(** ** Shape of the score column *)

Section Scores.

Context {num : Type} {F : Float64 num}.
Variable fm : fill_method.

Local Abbreviation DF := (DataFrame (num := num)).

Local Abbreviation Cell := (option num).

Lemma float_columns_wrap (g : list Cell -> list Cell) cols :
  float_columns (map (fun nc => (fst nc, Float64Col (g (snd nc)))) cols)
  = Ok (map (fun nc => (fst nc, g (snd nc))) cols).
Proof.
  induction cols as [|[n v] rest IH]; simpl; [reflexivity|].
  now rewrite IH.
Qed.

Lemma float_columns_length (cols : list (string * column (num := num))) fc :
  float_columns cols = Ok fc -> length fc = length cols.
Proof.
  revert fc. induction cols as [|[n [v|v]] rest IH]; simpl; intros fc H.
  - now injection H as <-.
  - destruct (float_columns rest) as [r|e]; simpl in H; [|discriminate].
    injection H as <-. simpl. f_equal. now apply IH.
  - discriminate.
Qed.

(** Line 104 unfolded: the score of row [i] is [nanstd] with [ddof = 1] of
    that row of the return columns. *)
Lemma volatility_ok (d : DF) vol :
  volatility fm d = Ok vol ->
  exists cols,
    float_columns (columns d) = Ok cols /\
    vol = map (fun i => nanstd 1 (row_at (returns fm cols) i)) (seq 0 (nrows d)).
Proof.
  unfold volatility, pct_change. intros H.
  destruct (float_columns (columns d)) as [cols|e] eqn:E; simpl in H; [|discriminate].
  exists cols. split; [reflexivity|].
  unfold std_axis1 in H. simpl in H.
  rewrite float_columns_wrap in H. simpl in H.
  injection H as <-. reflexivity.
Qed.

Lemma volatility_numeric (d : DF) cols :
  float_columns (columns d) = Ok cols ->
  volatility fm d =
    Ok (map (fun i => nanstd 1 (row_at (returns fm cols) i)) (seq 0 (nrows d))).
Proof.
  intros E. unfold volatility, pct_change. rewrite E. simpl.
  unfold std_axis1. simpl. now rewrite float_columns_wrap.
Qed.

Lemma volatility_length (d : DF) vol :
  volatility fm d = Ok vol -> length vol = nrows d.
Proof.
  intros H. destruct (volatility_ok _ _ H) as (cols & _ & ->).
  now rewrite length_map, length_seq.
Qed.

Lemma nth_error_map_seq {A} (f : nat -> A) n i :
  i < n -> nth_error (map f (seq 0 n)) i = Some (f i).
Proof.
  intros Hi. rewrite nth_error_map, nth_error_seq.
  destruct (Nat.ltb_spec i n); [reflexivity|lia].
Qed.

(** The first row of every return column is missing. *)
Lemma pct_change_col_first (v : list Cell) :
  nth 0 (pct_change_col fm v) None = None.
Proof.
  unfold pct_change_col.
  set (data := match fm with Pad => ffill v | NoFill => v end).
  destruct data as [|c rest]; [reflexivity|].
  unfold shift. simpl. now destruct c.
Qed.

Lemma nanstd_few (row : list Cell) :
  length (filter notna row) <= 1 -> nanstd 1 row = None.
Proof.
  intros H. unfold nanstd, nanvar.
  destruct (Nat.leb_spec (length (filter notna row)) 1); [reflexivity|lia].
Qed.

Lemma first_row_missing (cols : list (string * list Cell)) :
  filter notna (row_at (returns fm cols) 0) = [].
Proof.
  induction cols as [|[n v] rest IH]; [reflexivity|].
  unfold returns, row_at in *. simpl.
  rewrite pct_change_col_first. simpl. exact IH.
Qed.

Lemma volatility_first (d : DF) vol :
  volatility fm d = Ok vol -> 0 < nrows d -> nth_error vol 0 = Some None.
Proof.
  intros H Hn. destruct (volatility_ok _ _ H) as (cols & _ & ->).
  rewrite nth_error_map_seq by assumption. f_equal.
  apply nanstd_few. rewrite first_row_missing. simpl; lia.
Qed.

(** ** Labels *)

Lemma nth_error_gt (v : list Cell) m i c :
  nth_error v i = Some c ->
  nth_error (gt v m) i =
    Some (match c, m with Some x, Some t => f_lt t x | _, _ => false end).
Proof. intros H. unfold gt. now rewrite nth_error_map, H. Qed.

Lemma nth_error_np_where {A} (cond : list bool) (a b : A) i c :
  nth_error cond i = Some c ->
  nth_error (np_where cond a b) i = Some (if c then a else b).
Proof. intros H. unfold np_where. now rewrite nth_error_map, H. Qed.

Lemma np_where_length {A} (cond : list bool) (a b : A) :
  length (np_where cond a b) = length cond.
Proof. apply length_map. Qed.

Lemma gt_length (v : list Cell) m : length (gt v m) = length v.
Proof. apply length_map. Qed.

(** The label of a row, by its score. *)
Lemma label_of_score (v : list Cell) m i c :
  nth_error v i = Some c ->
  nth_error (np_where (gt v m) "High Volatility" "Low Volatility") i =
    Some (if match c, m with Some x, Some t => f_lt t x | _, _ => false end
          then "High Volatility" else "Low Volatility").
Proof.
  intros H. erewrite nth_error_np_where; [reflexivity|].
  now apply nth_error_gt.
Qed.

Lemma nth_error_eq_str (v : list string) s i x :
  nth_error v i = Some x -> nth_error (eq_str v s) i = Some (String.eqb x s).
Proof. intros H. unfold eq_str. now rewrite nth_error_map, H. Qed.

End Scores.

(* ------------------------------------------------------------------ *)
(** ** The classifier's output *)

Section Output.

Context {num : Type} {F : Float64 num}.
Variable Report : Type.
Variable fm : fill_method.

Local Abbreviation cell := (option num).
Local Abbreviation DF := (DataFrame (num := num)).
Local Abbreviation World := (world (num := num) Report).

Lemma classify_shape (r : ref) (w w' : World) (d d' : DF) :
  nth_error (heap w) r = Some d ->
  classify_volatility fm r w = (Ok tt, w') ->
  nth_error (heap w') r = Some d' ->
  exists vol,
    volatility fm d = Ok vol /\ d' = labelled d vol /\
    w' = mkWorld (heap_set r d' (heap w)) (files w) (stdout w).
Proof.
  intros Hd Hrun Hd'.
  destruct (classify_volatility_ok _ _ _ _ _ _ Hd Hrun) as (vol & Hv & Hw & Hn).
  exists vol. rewrite Hn in Hd'. injection Hd' as <-. auto.
Qed.

Lemma scores_of_labelled (d : DF) vol : scores_of (labelled d vol) = vol.
Proof. unfold scores_of. now rewrite labelled_scores. Qed.

Lemma labels_of_labelled (d : DF) vol :
  labels_of (labelled d vol) =
  np_where (gt vol (median vol)) "High Volatility" "Low Volatility".
Proof. unfold labels_of. now rewrite labelled_levels. Qed.

Lemma partition_of_labelled (d : DF) vol :
  partition_of (labelled d vol) =
  eq_str (np_where (gt vol (median vol)) "High Volatility" "Low Volatility")
         "High Volatility".
Proof. unfold partition_of. now rewrite labelled_levels. Qed.

Lemma labels_length (vol : list cell) m :
  length (np_where (gt vol m) "High Volatility" "Low Volatility") = length vol.
Proof. now rewrite np_where_length, gt_length. Qed.

Lemma label_cases (vol : list cell) m i :
  i < length vol ->
  nth_error (np_where (gt vol m) "High Volatility" "Low Volatility") i
    = Some "High Volatility" \/
  nth_error (np_where (gt vol m) "High Volatility" "Low Volatility") i
    = Some "Low Volatility".
Proof.
  intros Hi. destruct (nth_error vol i) as [c|] eqn:E.
  - rewrite (label_of_score _ _ _ _ E).
    destruct (match c, m with Some x, Some t => f_lt t x | _, _ => false end); auto.
  - apply nth_error_None in E. lia.
Qed.

(** A label "High Volatility" is only given to a defined score above a
    defined threshold. *)
Lemma high_label_inv (vol : list cell) m i :
  nth_error (np_where (gt vol m) "High Volatility" "Low Volatility") i
    = Some "High Volatility" ->
  exists s t, nth_error vol i = Some (Some s) /\ m = Some t /\ f_lt t s = true.
Proof.
  intros H. destruct (nth_error vol i) as [c|] eqn:E.
  - rewrite (label_of_score _ _ _ _ E) in H.
    destruct c as [s|]; [|discriminate].
    destruct m as [t|]; [|discriminate].
    destruct (f_lt t s) eqn:L; [|discriminate]. eauto.
  - apply nth_error_None in E.
    assert (nth_error (np_where (gt vol m) "High Volatility" "Low Volatility") i = None)
      by (apply nth_error_None; rewrite labels_length; lia).
    congruence.
Qed.

(** C10.  After the classifier has run on an accepted table, the first row's
    score is undefined, every row whose score is undefined is labelled
    "Low Volatility" and is marked False in the partition vector, and every
    row carries one of the two labels. *)
Theorem undefined_score_labelled_low (r : ref) (w w' : World) (d d' : DF) :
  nth_error (heap w) r = Some d ->
  classify_volatility fm r w = (Ok tt, w') ->
  nth_error (heap w') r = Some d' ->
  lookup "Volatility" (columns d') = Some (Float64Col (scores_of d')) /\
  lookup "Volatility_Level" (columns d') = Some (ObjectCol (labels_of d')) /\
  nrows d' = nrows d /\
  length (scores_of d') = nrows d /\
  length (labels_of d') = nrows d /\
  length (partition_of d') = nrows d /\
  (0 < nrows d -> nth_error (scores_of d') 0 = Some None) /\
  (forall i, nth_error (scores_of d') i = Some None ->
     nth_error (labels_of d') i = Some "Low Volatility" /\
     nth_error (partition_of d') i = Some false) /\
  (forall i, i < nrows d ->
     nth_error (labels_of d') i = Some "High Volatility" \/
     nth_error (labels_of d') i = Some "Low Volatility").
Proof.
  intros Hd Hrun Hd'.
  destruct (classify_shape _ _ _ _ _ Hd Hrun Hd') as (vol & Hv & -> & _).
  pose proof (volatility_length _ _ _ Hv) as Hlen.
  rewrite scores_of_labelled, labels_of_labelled, partition_of_labelled.
  rewrite labelled_scores, labelled_levels.
  split; [reflexivity|]. split; [reflexivity|]. split; [reflexivity|].
  split; [exact Hlen|].
  split; [now rewrite labels_length|].
  split; [unfold eq_str; now rewrite length_map, labels_length|].
  split; [intros Hn; now apply (volatility_first _ _ _ Hv)|].
  split.
  - intros i H. split.
    + now rewrite (label_of_score _ _ _ _ H).
    + erewrite nth_error_eq_str; [|now rewrite (label_of_score _ _ _ _ H)].
      reflexivity.
  - intros i Hi. apply label_cases. lia.
Qed.

Lemma map_seq_const {A} (f : nat -> A) (c : A) n :
  (forall i, i < n -> f i = c) -> map f (seq 0 n) = repeat c n.
Proof.
  intros H. apply nth_error_ext. intros i.
  destruct (Nat.lt_ge_cases i n) as [Hi|Hi].
  - rewrite nth_error_map_seq by assumption.
    rewrite nth_error_repeat by assumption. now rewrite H.
  - transitivity (@None A); [|symmetry]; apply nth_error_None.
    + now rewrite length_map, length_seq.
    + now rewrite repeat_length.
Qed.

Lemma row_at_length (cols : list (string * list cell)) i :
  length (row_at cols i) = length cols.
Proof. apply length_map. Qed.

Lemma filter_length_le {A} (p : A -> bool) l : length (filter p l) <= length l.
Proof.
  induction l as [|x l IH]; simpl; [lia|]. destruct (p x); simpl; lia.
Qed.

(** With fewer than two columns or fewer than two rows no score is
    defined. *)
Lemma volatility_too_small (d : DF) cols :
  float_columns (columns d) = Ok cols ->
  length cols < 2 \/ nrows d < 2 ->
  volatility fm d = Ok (repeat None (nrows d)).
Proof.
  intros Hc Hsmall. rewrite (volatility_numeric fm d cols Hc). f_equal.
  apply map_seq_const. intros i Hi. apply nanstd_few.
  destruct Hsmall as [Hcols|Hrows].
  - pose proof (filter_length_le notna (row_at (returns fm cols) i)) as Hle.
    rewrite row_at_length in Hle.
    replace (length (returns fm cols)) with (length cols) in Hle
      by (unfold returns; now rewrite length_map).
    lia.
  - assert (i = 0) as -> by lia. rewrite first_row_missing. simpl; lia.
Qed.

Lemma gt_all_missing n (m : cell) : gt (repeat None n) m = repeat false n.
Proof. induction n; simpl; [reflexivity|]. unfold gt in *. simpl. now rewrite IHn. Qed.

Lemma np_where_all_false {A} n (a b : A) :
  np_where (repeat false n) a b = repeat b n.
Proof. induction n; simpl; [reflexivity|]. unfold np_where in *. simpl. now rewrite IHn. Qed.

Lemma eq_str_all_low n :
  eq_str (repeat "Low Volatility" n) "High Volatility" = repeat false n.
Proof. induction n; simpl; [reflexivity|]. unfold eq_str in *. simpl. now rewrite IHn. Qed.

(** C5 (as amended).  A table of float columns with fewer than two ticker
    columns or fewer than two date rows is not rejected: lines 104-106
    complete, every score is undefined, every row is labelled
    "Low Volatility" and the partition vector is all False. *)
Theorem small_table_all_low (r : ref) (w : World) (d : DF)
    (cols : list (string * list cell)) :
  nth_error (heap w) r = Some d ->
  float_columns (columns d) = Ok cols ->
  length (columns d) < 2 \/ nrows d < 2 ->
  exists w' d',
    classify_volatility fm r w = (Ok tt, w') /\
    nth_error (heap w') r = Some d' /\
    scores_of d' = repeat None (nrows d) /\
    labels_of d' = repeat "Low Volatility" (nrows d) /\
    partition_of d' = repeat false (nrows d).
Proof.
  intros Hd Hc Hsmall.
  assert (Hv : volatility fm d = Ok (repeat None (nrows d))).
  { apply (volatility_too_small d cols Hc).
    rewrite (float_columns_length _ _ Hc). exact Hsmall. }
  pose proof (classify_volatility_run Report fm r w d Hd) as Hrun.
  rewrite Hv in Hrun.
  eexists. exists (labelled d (repeat None (nrows d))).
  split; [exact Hrun|].
  split; [simpl; eapply heap_set_same; exact Hd|].
  rewrite scores_of_labelled, labels_of_labelled, partition_of_labelled.
  rewrite gt_all_missing, np_where_all_false, eq_str_all_low. auto.
Qed.

(** C6 (as amended).  The classifier works in place: it assigns the columns
    'Volatility' and 'Volatility_Level' into the caller's frame.  The date
    index and every other column of that frame keep their contents, and no
    other object, file or output line is touched. *)
Theorem classifier_assigns_in_place (r : ref) (w w' : World) (d d' : DF) :
  nth_error (heap w) r = Some d ->
  classify_volatility fm r w = (Ok tt, w') ->
  nth_error (heap w') r = Some d' ->
  lookup "Volatility" (columns d') = Some (Float64Col (scores_of d')) /\
  lookup "Volatility_Level" (columns d') = Some (ObjectCol (labels_of d')) /\
  index d' = index d /\
  (forall name, name <> "Volatility" -> name <> "Volatility_Level" ->
     lookup name (columns d') = lookup name (columns d)) /\
  (forall r', r' <> r -> nth_error (heap w') r' = nth_error (heap w) r') /\
  length (heap w') = length (heap w) /\
  files w' = files w /\
  stdout w' = stdout w.
Proof.
  intros Hd Hrun Hd'.
  destruct (classify_shape _ _ _ _ _ Hd Hrun Hd') as (vol & Hv & -> & ->).
  rewrite scores_of_labelled, labels_of_labelled, labelled_scores, labelled_levels.
  split; [reflexivity|]. split; [reflexivity|]. split; [reflexivity|].
  split.
  - intros name H1 H2. unfold labelled, setitem. simpl.
    rewrite lookup_assign_other by assumption.
    now rewrite lookup_assign_other by assumption.
  - split; [|split; [|split; reflexivity]].
    + intros r' Hne. simpl. now apply heap_set_other.
    + simpl. apply heap_set_length.
Qed.

(** C7 (as amended).  The labels split the rows of the table, all of them,
    into two disjoint sets: every row carries exactly one of the two labels.
    A row labelled "High Volatility" has a defined score; the rows with an
    undefined score are in the "Low Volatility" set.  The partition vector
    is True exactly on the "High Volatility" rows. *)
Theorem labels_partition_all_rows (r : ref) (w w' : World) (d d' : DF) :
  nth_error (heap w) r = Some d ->
  classify_volatility fm r w = (Ok tt, w') ->
  nth_error (heap w') r = Some d' ->
  forall i,
    (i < nrows d <->
       nth_error (labels_of d') i = Some "High Volatility" \/
       nth_error (labels_of d') i = Some "Low Volatility") /\
    ~ (nth_error (labels_of d') i = Some "High Volatility" /\
       nth_error (labels_of d') i = Some "Low Volatility") /\
    (nth_error (labels_of d') i = Some "High Volatility" ->
       exists s, nth_error (scores_of d') i = Some (Some s)) /\
    (nth_error (scores_of d') i = Some None ->
       nth_error (labels_of d') i = Some "Low Volatility") /\
    (nth_error (partition_of d') i = Some true <->
       nth_error (labels_of d') i = Some "High Volatility").
Proof.
  intros Hd Hrun Hd' i.
  destruct (classify_shape _ _ _ _ _ Hd Hrun Hd') as (vol & Hv & -> & _).
  pose proof (volatility_length _ _ _ Hv) as Hlen.
  rewrite scores_of_labelled, labels_of_labelled, partition_of_labelled.
  set (labels := np_where (gt vol (median vol)) "High Volatility" "Low Volatility").
  assert (Hll : length labels = nrows d) by (unfold labels; now rewrite labels_length).
  split; [|split; [|split; [|split]]].
  - split.
    + intros Hi. apply label_cases. lia.
    + intros [H|H]; rewrite <- Hll; apply nth_error_Some; congruence.
  - intros [H1 H2]. rewrite H1 in H2. discriminate.
  - intros H. destruct (high_label_inv _ _ _ H) as (s & t & Hs & _). eauto.
  - intros H. unfold labels. now rewrite (label_of_score _ _ _ _ H).
  - split.
    + intros H. destruct (nth_error labels i) as [l|] eqn:E.
      * rewrite (nth_error_eq_str _ _ _ _ E) in H. injection H as H.
        apply String.eqb_eq in H. now subst.
      * assert (nth_error (eq_str labels "High Volatility") i = None).
        { apply nth_error_None. unfold eq_str. rewrite length_map.
          now apply nth_error_None. }
        congruence.
    + intros H. now rewrite (nth_error_eq_str _ _ _ _ H).
Qed.

End Output.

(* ------------------------------------------------------------------ *)
(** ** The failure path of the run *)

Section Orchestrator.

Context {num : Type} {F : Float64 num} {SV : Sweetviz}.
Variable Report : Type.
Variable yf_download : list string -> string -> string -> result (RawData (num := num)).
Variable sv_analyze : DataFrame (num := num) -> result Report.
Variable sv_compare_intra :
  DataFrame (num := num) -> list bool -> list string -> result Report.
Variable fm : fill_method.

Local Abbreviation World := (world (num := num) Report).




End Orchestrator.

(* ------------------------------------------------------------------ *)
(** ** Exact arithmetic: sums, standard deviation *)

Section ExactStd.

Local Open Scope R_scope.

Local Abbreviation cell := (option R).

Lemma Rltb_true (x y : R) : Rltb x y = true <-> x < y.
Proof. unfold Rltb. destruct (Rlt_dec x y); split; auto; discriminate. Qed.

Lemma Rltb_false (x y : R) : Rltb x y = false <-> y <= x.
Proof.
  unfold Rltb. destruct (Rlt_dec x y); split; intros; try discriminate; try lra; auto.
Qed.

Lemma fold_left_sum (l : list R) (a : R) : fold_left Rplus l a = a + Spec.sum l.
Proof.
  revert a. induction l as [|x l IH]; intros a; simpl; [lra|].
  rewrite IH. unfold Spec.sum. lra.
Qed.

Lemma sum_app (l l' : list R) : Spec.sum (l ++ l') = Spec.sum l + Spec.sum l'.
Proof. induction l as [|x l IH]; simpl in *; lra. Qed.

(** Eight running sums add up to the plain sum. *)
Lemma pairwise_block_exact (n : nat) :
  forall (a : list R) (r0 r1 r2 r3 r4 r5 r6 r7 : R),
    (length a <= n)%nat ->
    pairwise_block r0 r1 r2 r3 r4 r5 r6 r7 a
    = r0 + r1 + r2 + r3 + r4 + r5 + r6 + r7 + Spec.sum a.
Proof.
  induction n as [|n IH]; intros a r0 r1 r2 r3 r4 r5 r6 r7 Hn.
  - destruct a; [|simpl in Hn; lia]. simpl. lra.
  - destruct a as [|a0 [|a1 [|a2 [|a3 [|a4 [|a5 [|a6 [|a7 rest]]]]]]]];
      try (cbn [pairwise_block f_add exact]; rewrite fold_left_sum;
           unfold Spec.sum; simpl; lra).
    cbn [pairwise_block]. rewrite IH by (simpl in Hn; lia).
    unfold Spec.sum. simpl. lra.
Qed.

Lemma pairwise_sum_exact (fuel : nat) :
  forall a : list R, pairwise_sum fuel a = Spec.sum a.
Proof.
  assert (Hseq : forall a : list R, fold_left f_add a f_zero = Spec.sum a)
    by (intros a; cbn [f_add f_zero exact]; rewrite fold_left_sum; lra).
  induction fuel as [|fuel IH]; intros a; cbn [pairwise_sum].
  - destruct (length a <? 8)%nat; [apply Hseq|].
    destruct (length a <=? 128)%nat; [|apply Hseq].
    destruct a as [|a0 [|a1 [|a2 [|a3 [|a4 [|a5 [|a6 [|a7 rest]]]]]]]];
      try apply Hseq.
    rewrite (pairwise_block_exact (length rest)) by lia. unfold Spec.sum. simpl. lra.
  - destruct (length a <? 8)%nat; [apply Hseq|].
    destruct (length a <=? 128)%nat.
    + destruct a as [|a0 [|a1 [|a2 [|a3 [|a4 [|a5 [|a6 [|a7 rest]]]]]]]];
        try apply Hseq.
      rewrite (pairwise_block_exact (length rest)) by lia. unfold Spec.sum. simpl. lra.
    + rewrite !IH. cbn [f_add exact]. rewrite <- sum_app. now rewrite firstn_skipn.
Qed.

Lemma fsum_exact (l : list R) : fsum l = Spec.sum l.
Proof.
  unfold fsum. rewrite pairwise_sum_exact. cbn [f_add f_zero exact]. lra.
Qed.

Lemma sum_perm (l l' : list R) : Permutation l l' -> Spec.sum l = Spec.sum l'.
Proof.
  induction 1; simpl; lra.
Qed.

Lemma dropna_length (row : list cell) :
  length (dropna row) = length (filter notna row).
Proof.
  induction row as [|[x|] row IH]; simpl; auto.
Qed.

Lemma dropna_perm (row row' : list cell) :
  Permutation row row' -> Permutation (dropna row) (dropna row').
Proof.
  induction 1 as [|c l l' _ IH|c1 c2 l|l l' l'' _ IH1 _ IH2]; simpl.
  - constructor.
  - destruct c; auto.
  - destruct c1, c2; auto using Permutation_refl. apply perm_swap.
  - eapply Permutation_trans; eauto.
Qed.

Lemma sum_masked (row : list cell) :
  Spec.sum (map fillna0 row) = Spec.sum (dropna row).
Proof.
  induction row as [|[x|] row IH]; simpl in *; lra.
Qed.

Lemma sum_sq_masked (avg : R) (row : list cell) :
  Spec.sum (map (fun c : cell => match c with
                          | Some x => f_mul (f_sub avg x) (f_sub avg x)
                          | None => f_zero
                          end) row)
  = Spec.sum (map (fun x => (x - avg) ^ 2) (dropna row)).
Proof.
  induction row as [|[x|] row IH]; simpl in *; lra.
Qed.

(** pandas' masked two-pass algorithm computes the sample standard
    deviation of the defined values. *)
Lemma nanstd_sample_std (row : list cell) :
  nanstd 1 row = Spec.sample_std (dropna row).
Proof.
  unfold nanstd, nanvar, Spec.sample_std. rewrite <- dropna_length.
  destruct (Nat.leb_spec (length (dropna row)) 1) as [Hle|Hgt]; [reflexivity|].
  cbn [option_map nan_to_missing f_isnan exact f_sqrt f_div f_of_nat].
  f_equal. f_equal.
  rewrite !fsum_exact, sum_masked, sum_sq_masked.
  unfold Spec.mean.
  replace (INR (length (dropna row) - 1)) with (INR (length (dropna row)) - 1).
  - reflexivity.
  - rewrite minus_INR by lia. simpl. reflexivity.
Qed.

Lemma sample_std_perm (xs ys : list R) :
  Permutation xs ys -> Spec.sample_std xs = Spec.sample_std ys.
Proof.
  intros H. unfold Spec.sample_std, Spec.mean.
  rewrite (Permutation_length H), (sum_perm _ _ H).
  destruct (length ys <=? 1)%nat; [reflexivity|].
  f_equal. f_equal. f_equal.
  apply sum_perm. now apply Permutation_map.
Qed.

Lemma nanstd_perm (row row' : list cell) :
  Permutation row row' -> nanstd 1 row = nanstd 1 row'.
Proof.
  intros H. rewrite !nanstd_sample_std.
  apply sample_std_perm. now apply dropna_perm.
Qed.

End ExactStd.

(* ------------------------------------------------------------------ *)
(** ** Exact arithmetic: sorting and the median *)

Section ExactMedian.

Local Open Scope R_scope.

Local Abbreviation cell := (option R).

(** Over the reals nothing is NaN. *)
Lemma nan_to_missing_exact (c : cell) : nan_to_missing c = c.
Proof. now destruct c. Qed.

Lemma median_exact (v : list cell) : median v = median_sorted (sort (dropna v)).
Proof. unfold median. apply nan_to_missing_exact. Qed.

Lemma insert_perm (x : R) (l : list R) : Permutation (insert x l) (x :: l).
Proof.
  induction l as [|y l IH]; simpl; [reflexivity|].
  destruct (Rltb x y); [reflexivity|].
  rewrite IH. apply perm_swap.
Qed.

Lemma sort_perm (l : list R) : Permutation (sort l) l.
Proof.
  induction l as [|x l IH]; simpl; [constructor|].
  rewrite insert_perm. now constructor.
Qed.

Lemma insert_hd (x a : R) (l : list R) :
  a <= x -> HdRel Rle a l -> HdRel Rle a (insert x l).
Proof.
  intros Hax Hl. destruct l as [|y l]; simpl.
  - now constructor.
  - destruct (Rltb x y); constructor; auto. now inversion Hl.
Qed.

Lemma insert_sorted (x : R) (l : list R) :
  Sorted Rle l -> Sorted Rle (insert x l).
Proof.
  induction 1 as [|y l Hs IH Hhd]; simpl.
  - repeat constructor.
  - destruct (Rltb x y) eqn:E.
    + apply Rltb_true in E. constructor; [now constructor|]. constructor. lra.
    + apply Rltb_false in E. constructor; auto. now apply insert_hd.
Qed.

Lemma sort_sorted (l : list R) : Sorted Rle (sort l).
Proof.
  induction l as [|x l IH]; simpl; [constructor|]. now apply insert_sorted.
Qed.

Lemma Rle_trans' : Relations_1.Transitive Rle.
Proof. intros x y z; lra. Qed.

(** A list has one ascending arrangement only. *)
Lemma sorted_perm_unique (s1 s2 : list R) :
  Sorted Rle s1 -> Sorted Rle s2 -> Permutation s1 s2 -> s1 = s2.
Proof.
  intros H1 H2. apply (Sorted_StronglySorted Rle_trans') in H1, H2.
  revert s2 H2. induction H1 as [|a t1 Ht1 IH Ha]; intros s2 H2 HP.
  - now apply Permutation_nil in HP.
  - destruct H2 as [|b t2 Ht2 Hb].
    + apply Permutation_sym, Permutation_nil in HP. discriminate.
    + assert (Hab : a = b).
      { assert (Hin1 : In a (b :: t2)) by (eapply Permutation_in; [exact HP|now left]).
        assert (Hin2 : In b (a :: t1))
          by (eapply Permutation_in; [apply Permutation_sym; exact HP|now left]).
        rewrite Forall_forall in Ha, Hb.
        destruct Hin1 as [->|Hin1]; [reflexivity|].
        destruct Hin2 as [->|Hin2]; [reflexivity|].
        apply Hb in Hin1. apply Ha in Hin2. lra. }
      subst b. f_equal. apply IH; [assumption|].
      eapply Permutation_cons_inv; exact HP.
Qed.

(** The values [Series.median] works on are the defined ones, in ascending
    order. *)
Lemma sort_dropna_unique (v : list cell) (s : list R) :
  Permutation s (dropna v) -> Sorted Rle s -> sort (dropna v) = s.
Proof.
  intros HP Hs. apply sorted_perm_unique; auto using sort_sorted.
  rewrite sort_perm. now apply Permutation_sym.
Qed.

Lemma median_sorted_odd (s : list R) (k : nat) :
  length s = (2 * k + 1)%nat -> median_sorted s = Some (nth k s 0).
Proof.
  intros H. unfold median_sorted. rewrite H.
  replace (2 * k + 1 =? 0)%nat with false by (symmetry; apply Nat.eqb_neq; lia).
  replace (Nat.even (2 * k + 1)) with false
    by (symmetry; rewrite Nat.even_add, Nat.even_mul; reflexivity).
  replace ((2 * k + 1) / 2)%nat with k; [reflexivity|].
  apply Nat.div_unique with (r := 1%nat); lia.
Qed.

Lemma median_sorted_even (s : list R) (k : nat) :
  length s = (2 * k + 2)%nat ->
  median_sorted s = Some ((nth k s 0 + nth (k + 1) s 0) / 2).
Proof.
  intros H. unfold median_sorted. rewrite H.
  replace (2 * k + 2 =? 0)%nat with false by (symmetry; apply Nat.eqb_neq; lia).
  replace (Nat.even (2 * k + 2)) with true
    by (symmetry; rewrite Nat.even_add, Nat.even_mul; reflexivity).
  replace ((2 * k + 2) / 2)%nat with (k + 1)%nat
    by (apply Nat.div_unique with (r := 0%nat); lia).
  replace (k + 1 - 1)%nat with k by lia.
  simpl. f_equal; lra.
Qed.

Lemma sort_length (l : list R) : length (sort l) = length l.
Proof. apply Permutation_length, sort_perm. Qed.

Lemma dropna_In (v : list cell) (i : nat) (s : R) :
  nth_error v i = Some (Some s) -> In s (dropna v).
Proof.
  revert i. induction v as [|[x|] v IH]; intros [|i] H; simpl in *;
    try discriminate; eauto.
  injection H as ->. now left.
Qed.

(** Some defined score makes the median defined. *)
Lemma median_defined (v : list cell) (i : nat) (s : R) :
  nth_error v i = Some (Some s) -> exists t, median v = Some t.
Proof.
  intros H. apply dropna_In in H.
  rewrite median_exact. unfold median_sorted. rewrite sort_length.
  destruct (dropna v) as [|x l]; [contradiction|].
  simpl length. simpl Nat.eqb. cbv iota.
  destruct (Nat.even (S (length l))); eauto.
Qed.

End ExactMedian.

(* ------------------------------------------------------------------ *)
(** ** The classifier over exact arithmetic *)

Section ExactClassifier.

Local Open Scope R_scope.

Variable Report : Type.
Variable fm : fill_method.

Local Abbreviation cell := (option R).
Local Abbreviation DF := (DataFrame (num := R)).
Local Abbreviation World := (world (num := R) Report).

Lemma median_sorted_spec (s : list R) :
  s <> [] -> median_sorted s = Some (Spec.median_of_sorted s).
Proof.
  intros Hne. unfold median_sorted, Spec.median_of_sorted.
  destruct s as [|x s]; [contradiction|]. cbv zeta.
  change (length (x :: s) =? 0)%nat with false. cbv iota.
  destruct (Nat.even (length (x :: s))); reflexivity.
Qed.

(** The threshold of line 105 in the words of the specification. *)
Lemma median_is_median_of_sorted (v : list cell) (sorted : list R) :
  Permutation sorted (dropna v) -> Sorted Rle sorted -> sorted <> [] ->
  median v = Some (Spec.median_of_sorted sorted).
Proof.
  intros HP Hs Hne.
  rewrite median_exact, (sort_dropna_unique _ _ HP Hs).
  now apply median_sorted_spec.
Qed.

(** C1.  Put the defined scores in ascending order and take their median:
    the middle score, or the average of the two middle scores.  A row with
    a defined score is labelled "High Volatility" exactly when its score is
    strictly greater than that median, and "Low Volatility" otherwise; a
    score equal to the median is labelled "Low Volatility". *)
Theorem label_high_iff_above_median (r : ref) (w w' : World) (d d' : DF) :
  nth_error (heap w) r = Some d ->
  classify_volatility fm r w = (Ok tt, w') ->
  nth_error (heap w') r = Some d' ->
  forall (sorted : list R) (i : nat) (s : R),
    Permutation sorted (dropna (scores_of d')) ->
    Sorted Rle sorted ->
    nth_error (scores_of d') i = Some (Some s) ->
    (nth_error (labels_of d') i = Some "High Volatility"
       <-> Spec.median_of_sorted sorted < s) /\
    (nth_error (labels_of d') i = Some "Low Volatility"
       <-> s <= Spec.median_of_sorted sorted) /\
    (s = Spec.median_of_sorted sorted ->
       nth_error (labels_of d') i = Some "Low Volatility").
Proof.
  intros Hd Hrun Hd' sorted i s HP Hsorted Hs.
  destruct (classify_shape Report fm r w w' d d' Hd Hrun Hd') as (vol & Hv & -> & _).
  rewrite scores_of_labelled in *. rewrite labels_of_labelled.
  assert (Hne : sorted <> []).
  { intros ->. apply Permutation_nil in HP.
    apply dropna_In in Hs. rewrite HP in Hs. contradiction. }
  rewrite (label_of_score _ _ _ _ Hs).
  rewrite (median_is_median_of_sorted vol sorted HP Hsorted Hne).
  cbn [f_lt exact].
  destruct (Rltb (Spec.median_of_sorted sorted) s) eqn:E.
  - apply Rltb_true in E.
    repeat split; intros; try reflexivity; try lra; discriminate.
  - apply Rltb_false in E.
    repeat split; intros; try reflexivity; try lra; discriminate.
Qed.

(** C2.  The threshold of line 105, [df['Volatility'].median()], is computed
    once and serves all rows.  It is the median of the defined scores:
    arrange them in ascending order; the threshold is the middle value when
    their number is odd, the arithmetic mean of the two middle values when
    it is even, and undefined when there are none. *)
Theorem threshold_is_median (r : ref) (w w' : World) (d d' : DF) :
  nth_error (heap w) r = Some d ->
  classify_volatility fm r w = (Ok tt, w') ->
  nth_error (heap w') r = Some d' ->
  labels_of d' =
    np_where (gt (scores_of d') (median (scores_of d')))
      "High Volatility" "Low Volatility" /\
  (exists s, Permutation s (dropna (scores_of d')) /\ Sorted Rle s) /\
  forall s : list R,
    Permutation s (dropna (scores_of d')) -> Sorted Rle s ->
    (s = [] -> median (scores_of d') = None) /\
    (forall k, length s = (2 * k + 1)%nat ->
       median (scores_of d') = Some (nth k s 0)) /\
    (forall k, length s = (2 * k + 2)%nat ->
       median (scores_of d') = Some ((nth k s 0 + nth (k + 1) s 0) / 2)).
Proof.
  intros Hd Hrun Hd'.
  destruct (classify_shape Report fm r w w' d d' Hd Hrun Hd') as (vol & Hv & -> & _).
  rewrite scores_of_labelled, labels_of_labelled.
  split; [reflexivity|]. split.
  - exists (sort (dropna vol)). split; [apply sort_perm|apply sort_sorted].
  - intros s HP Hs. rewrite median_exact, (sort_dropna_unique _ _ HP Hs).
    split; [intros ->; reflexivity|]. split; intros k Hk.
    + now apply median_sorted_odd.
    + now apply median_sorted_even.
Qed.

(** ** Returns *)

Lemma nth_error_combine_shift (l : list cell) (prev : cell) (i : nat) :
  nth_error (combine l (firstn (length l) (prev :: l))) i =
  match nth_error l i with
  | Some x => Some (x, nth i (prev :: l) None)
  | None => None
  end.
Proof.
  revert prev i. induction l as [|a l IH]; intros prev i.
  - now destruct i.
  - destruct i as [|i]; [reflexivity|].
    change (nth_error (combine l (firstn (length l) (a :: l))) i =
            match nth_error l i with
            | Some x => Some (x, nth i (a :: l) None)
            | None => None
            end).
    apply IH.
Qed.

Lemma ffill_from_length (last : cell) (v : list cell) :
  length (ffill_from last v) = length v.
Proof.
  revert last. induction v as [|c v IH]; intros last; simpl; [reflexivity|].
  now rewrite IH.
Qed.

Lemma ffill_from_defined (last : cell) (v : list cell) (i : nat) (p : R) :
  nth_error v i = Some (Some p) -> nth_error (ffill_from last v) i = Some (Some p).
Proof.
  revert last i. induction v as [|c v IH]; intros last [|i] H; simpl in *;
    try discriminate.
  - injection H as ->. reflexivity.
  - now apply IH.
Qed.

Lemma pct_change_col_length (v : list cell) :
  length (pct_change_col fm v) = length v.
Proof.
  unfold pct_change_col, shift.
  rewrite length_map, length_combine, length_firstn. simpl length.
  destruct fm; unfold ffill; rewrite ?ffill_from_length; lia.
Qed.

(** Where both prices are there, the return is the relative change. *)
Lemma pct_change_col_value (v : list cell) (i : nat) (p q : R) :
  nth_error v (S i) = Some (Some p) ->
  nth_error v i = Some (Some q) ->
  q <> 0 ->
  nth_error (pct_change_col fm v) (S i) = Some (Some ((p - q) / q)).
Proof.
  intros Hp Hq Hq0. unfold pct_change_col, shift.
  set (data := match fm with Pad => ffill v | NoFill => v end).
  assert (Hp' : nth_error data (S i) = Some (Some p))
    by (unfold data; destruct fm; [now apply ffill_from_defined|exact Hp]).
  assert (Hq' : nth_error data i = Some (Some q))
    by (unfold data; destruct fm; [now apply ffill_from_defined|exact Hq]).
  rewrite nth_error_map, nth_error_combine_shift, Hp'. simpl.
  rewrite (nth_error_nth _ _ _ Hq'). simpl.
  do 2 f_equal. now field.
Qed.

(** Without padding, a missing price on either side leaves the return
    missing. *)
Lemma pct_change_col_missing (v : list cell) (i : nat) :
  (S i < length v)%nat ->
  nth_error v (S i) = Some None \/ nth_error v i = Some None ->
  nth_error (pct_change_col NoFill v) (S i) = Some None.
Proof.
  intros Hi H. unfold pct_change_col, shift.
  rewrite nth_error_map, nth_error_combine_shift.
  destruct (nth_error v (S i)) as [x|] eqn:E.
  - simpl. f_equal. destruct H as [H|H].
    + injection H as ->. reflexivity.
    + rewrite (nth_error_nth _ _ _ H). now destruct x.
  - apply nth_error_None in E. lia.
Qed.

Lemma pct_change_col_head (v : list cell) :
  v <> [] -> nth_error (pct_change_col fm v) 0 = Some None.
Proof.
  intros Hv. pose proof (pct_change_col_first fm v) as H0.
  pose proof (pct_change_col_length v) as Hl.
  destruct (pct_change_col fm v) as [|c l]; simpl in *.
  - destruct v; [contradiction|discriminate].
  - now subst c.
Qed.

(** C3.  On a table of float columns in which no price is zero, the score of
    every date row is the sample standard deviation (N - 1 in the
    denominator) of the defined returns of that row, taken across the
    ticker columns; with no or one defined return the score is undefined.
    The returns are those of line 104: none in the first row, and
    (price - previous) / previous wherever both prices are defined. *)
Theorem score_is_sample_std (r : ref) (w w' : World) (d d' : DF)
    (cols : list (string * list cell)) :
  nth_error (heap w) r = Some d ->
  classify_volatility fm r w = (Ok tt, w') ->
  nth_error (heap w') r = Some d' ->
  float_columns (columns d) = Ok cols ->
  (forall name prices x, In (name, prices) cols -> In (Some x) prices -> x <> 0) ->
  length (scores_of d') = nrows d /\
  (forall i, (i < nrows d)%nat ->
    nth_error (scores_of d') i =
      Some (Spec.sample_std
              (dropna (map (fun nc => nth i (pct_change_col fm (snd nc)) None) cols))) /\
    ((length (dropna (map (fun nc => nth i (pct_change_col fm (snd nc)) None) cols))
      <= 1)%nat ->
     nth_error (scores_of d') i = Some None)) /\
  (forall name prices, In (name, prices) cols ->
     nth 0 (pct_change_col fm prices) None = None /\
     forall i p q,
       nth_error prices (S i) = Some (Some p) ->
       nth_error prices i = Some (Some q) ->
       nth (S i) (pct_change_col fm prices) None = Some ((p - q) / q)).
Proof.
  intros Hd Hrun Hd' Hc Hnz.
  destruct (classify_shape Report fm r w w' d d' Hd Hrun Hd') as (vol & Hv & -> & _).
  rewrite scores_of_labelled.
  split; [exact (volatility_length fm d vol Hv)|].
  rewrite (volatility_numeric fm d cols Hc) in Hv. injection Hv as <-.
  split.
  - intros i Hi.
    rewrite (nth_error_map_seq _ _ _ Hi).
    assert (Hrow : row_at (returns fm cols) i
                   = map (fun nc => nth i (pct_change_col fm (snd nc)) None) cols).
    { unfold row_at, returns. rewrite map_map. reflexivity. }
    rewrite Hrow. split.
    + f_equal. apply nanstd_sample_std.
    + intros Hfew. f_equal. apply nanstd_few.
      rewrite <- dropna_length. exact Hfew.
  - intros name prices Hin. split.
    + pose proof (pct_change_col_first fm prices) as H0.
      destruct (pct_change_col fm prices); [reflexivity|exact H0].
    + intros i p q Hp Hq.
      apply nth_error_nth. apply pct_change_col_value; [exact Hp|exact Hq|].
      apply (Hnz name prices q Hin). eapply nth_error_In. exact Hq.
Qed.

(** C4 (as amended).  [pct_change] keeps every row of the table: the date
    index is unchanged and every column keeps its name and its length.  The
    first row of each return column is undefined.  For a later row whose
    price and previous price are both defined, the previous one non-zero,
    the return is (price - previous) / previous.  Under
    [fill_method = None] the return is undefined wherever either of the two
    prices is missing. *)
Theorem pct_change_keeps_all_rows (df rs : DF) :
  pct_change fm df = Ok rs ->
  index rs = index df /\
  nrows rs = nrows df /\
  Forall2
    (fun pc rc : string * column =>
       fst rc = fst pc /\
       exists prices rets : list cell,
         snd pc = Float64Col prices /\
         snd rc = Float64Col rets /\
         length rets = length prices /\
         (prices <> [] -> nth_error rets 0 = Some None) /\
         (forall i p q,
            nth_error prices (S i) = Some (Some p) ->
            nth_error prices i = Some (Some q) ->
            q <> 0 ->
            nth_error rets (S i) = Some (Some ((p - q) / q))) /\
         (fm = NoFill ->
          forall i, (S i < length prices)%nat ->
            nth_error prices (S i) = Some None \/ nth_error prices i = Some None ->
            nth_error rets (S i) = Some None))
    (columns df) (columns rs).
Proof.
  unfold pct_change. intros H.
  destruct (float_columns (columns df)) as [cols|e] eqn:E; simpl in H; [|discriminate].
  injection H as <-. simpl. split; [reflexivity|]. split; [reflexivity|].
  revert cols E. induction (columns df) as [|[n [v|v]] rest IH]; intros cols E; simpl in E.
  - injection E as <-. constructor.
  - destruct (float_columns rest) as [fr|e] eqn:Er; simpl in E; [|discriminate].
    injection E as <-. simpl. constructor.
    + split; [reflexivity|]. exists v, (pct_change_col fm v). simpl.
      split; [reflexivity|]. split; [reflexivity|].
      split; [apply pct_change_col_length|].
      split; [apply pct_change_col_head|].
      split; [apply pct_change_col_value|].
      intros ->. apply pct_change_col_missing.
    + now apply IH.
  - discriminate.
Qed.

(** ** Column order *)

Lemma float_columns_perm (cols cols' : list (string * column (num := R))) :
  Permutation cols cols' ->
  match float_columns cols, float_columns cols' with
  | Ok a, Ok b => Permutation a b
  | Raise e, Raise e' => e = e'
  | _, _ => False
  end.
Proof.
  induction 1 as [|[n [v|v]] l l' _ IH|[n1 [v1|v1]] [n2 [v2|v2]] l|l l' l'' _ IH1 _ IH2];
    simpl; try reflexivity.
  - destruct (float_columns l), (float_columns l'); simpl; auto.
  - destruct (float_columns l); simpl; [apply perm_swap|reflexivity].
  - destruct (float_columns l), (float_columns l'), (float_columns l'');
      try contradiction; try congruence.
    eapply Permutation_trans; eauto.
Qed.

(** C9 (as amended).  In exact arithmetic, reordering the ticker columns
    leaves every row's score as it was. *)
Theorem volatility_permutation_invariant (d d' : DF) :
  index d' = index d ->
  Permutation (columns d) (columns d') ->
  volatility fm d' = volatility fm d.
Proof.
  intros Hidx HP. pose proof (float_columns_perm _ _ HP) as H.
  destruct (float_columns (columns d)) as [a|e] eqn:Ea;
    destruct (float_columns (columns d')) as [b|e'] eqn:Eb; try contradiction.
  - rewrite (volatility_numeric fm d a Ea), (volatility_numeric fm d' b Eb).
    unfold nrows. rewrite Hidx. f_equal. apply map_ext. intros i.
    apply nanstd_perm. unfold row_at, returns.
    apply Permutation_map, Permutation_map, Permutation_sym, H.
  - subst e'. unfold volatility, pct_change. now rewrite Ea, Eb.
Qed.

End ExactClassifier.

(* ------------------------------------------------------------------ *)
(** ** Fetching, rendering and the whole run *)

Section Run.

Context {num : Type} {F : Float64 num} {SV : Sweetviz}.
Variable Report : Type.
Variable yf_download : list string -> string -> string -> result (RawData (num := num)).
Variable sv_analyze : DataFrame (num := num) -> result Report.
Variable sv_compare_intra :
  DataFrame (num := num) -> list bool -> list string -> result Report.
Variable fm : fill_method.

Local Abbreviation DF := (DataFrame (num := num)).
Local Abbreviation World := (world (num := num) Report).

Lemma heap_fresh (h : list DF) (d : DF) : nth_error (h ++ [d]) (length h) = Some d.
Proof. rewrite nth_error_app2 by lia. now rewrite Nat.sub_diag. Qed.

Lemma heap_set_fresh (h : list DF) (d d' : DF) :
  heap_set (length h) d' (h ++ [d]) = h ++ [d'].
Proof. induction h as [|x h IH]; simpl; [reflexivity|]. now rewrite IH. Qed.


(** The general report in one step. *)
Lemma generate_sweetviz_report_run (r : ref) (filename : string) (w : World) (d : DF) :
  nth_error (heap w) r = Some d ->
  generate_sweetviz_report sv_analyze r filename w =
    match sv_analyze d with
    | Ok rep =>
        (Ok tt, mkWorld (heap w) (files w ++ [(filename, rep)])
                        (stdout w ++ show_html_prints filename ++
                         [("Sweetviz report generated: " ++ filename)%string]))
    | Raise e => (Raise e, w)
    end.
Proof.
  intros Hd. unfold generate_sweetviz_report, bind, load, lift. rewrite Hd.
  destruct (sv_analyze d); [|reflexivity].
  unfold show_html, bind, write_file, print_lines, print. simpl.
  now rewrite <- app_assoc.
Qed.

(** The comparison report in one step. *)
Lemma generate_volatility_comparison_run (r : ref) (filename : string) (w : World) (d : DF) :
  nth_error (heap w) r = Some d ->
  generate_volatility_comparison sv_compare_intra fm r filename w =
    match volatility fm d with
    | Raise e => (Raise e, w)
    | Ok vol =>
        match sv_compare_intra (labelled d vol) (partition_of (labelled d vol))
                ["High Volatility"; "Low Volatility"] with
        | Ok rep =>
            (Ok tt,
             mkWorld (heap_set r (labelled d vol) (heap w))
               (files w ++ [(filename, rep)])
               (stdout w ++ show_html_prints filename ++
                [("Sweetviz volatility comparison report generated: " ++ filename)%string]))
        | Raise e =>
            (Raise e, mkWorld (heap_set r (labelled d vol) (heap w)) (files w) (stdout w))
        end
    end.
Proof.
  intros Hd. unfold generate_volatility_comparison. unfold bind at 1.
  rewrite (classify_volatility_run Report fm r w d Hd).
  destruct (volatility fm d) as [vol|e]; [|reflexivity].
  unfold bind, load, lift, getitem. simpl.
  rewrite (heap_set_same r (labelled d vol) d (heap w) Hd).
  rewrite labelled_levels. unfold partition_of. rewrite labelled_levels. simpl.
  destruct (sv_compare_intra _ _ _); [|reflexivity].
  unfold show_html, bind, write_file, print_lines, print. simpl.
  now rewrite <- app_assoc.
Qed.

Lemma fetch_stock_data_ok (stocks : list string) (start end_ : string) (w : World)
    (data : RawData) (cols : list (string * column)) :
  yf_download stocks start end_ = Ok data ->
  raw_empty data = false ->
  raw_lookup "Adj Close" (raw_fields data) = Some cols ->
  fetch_stock_data yf_download stocks start end_ w =
    (Ok (Some (length (heap w))),
     mkWorld (heap w ++ [mkDataFrame (raw_index data) cols]) (files w) (stdout w)).
Proof.
  intros Hd He Hl.
  unfold fetch_stock_data, try_except, bind, lift, raw_getitem.
  rewrite Hd. simpl. rewrite He, Hl. reflexivity.
Qed.

(** [main] up to the point where the price frame is in hand. *)
Lemma main_after_fetch (dialogue stocks : list string) (start_date end_date : string)
    (w : World) (data : RawData) (cols : list (string * column)) :
  yf_download stocks start_date end_date = Ok data ->
  raw_empty data = false ->
  raw_lookup "Adj Close" (raw_fields data) = Some cols ->
  main yf_download sv_analyze sv_compare_intra fm dialogue
       (stocks, start_date, end_date) w =
  bind (generate_sweetviz_report sv_analyze (length (heap w)) "sweetviz_report.html")
    (fun _ =>
     bind (print (nl ++ "Generating volatility comparison report...")%string)
       (fun _ =>
        bind (generate_volatility_comparison sv_compare_intra fm (length (heap w))
                "sweetviz_volatility_report.html")
          (fun _ =>
           bind (print (nl ++ "All reports have been successfully generated.")%string)
             (fun _ => ret Success))))
    (mkWorld (heap w ++ [mkDataFrame (raw_index data) cols]) (files w)
       (stdout w ++ preamble dialogue)).
Proof.
  intros Hd He Hl. unfold main, get_user_input, bind at 1 2 3 4. simpl.
  rewrite (fetch_stock_data_ok stocks start_date end_date _ data cols Hd He Hl).
  simpl. unfold bind at 1. unfold print at 1. simpl.
  unfold preamble. now rewrite <- !app_assoc.
Qed.

(** X2.  When the download has adjusted closes and both reports render, the
    run ends in [Success] with exactly two new files, in this order: the
    general report, rendered from the price frame as downloaded, and the
    comparison report, rendered from the same object after the classifier
    has added its two columns, with the partition vector read from the
    label column and the group names "High Volatility", "Low Volatility".
    On the terminal each of the script's two "generated" lines follows
    what [show_html] itself printed for that file. *)
Theorem main_writes_both_reports
    (dialogue stocks : list string) (start_date end_date : string) (w : World)
    (data : RawData) (cols : list (string * column))
    (vol : list (option num)) (general comparison : Report) :
  yf_download stocks start_date end_date = Ok data ->
  raw_empty data = false ->
  raw_lookup "Adj Close" (raw_fields data) = Some cols ->
  sv_analyze (mkDataFrame (raw_index data) cols) = Ok general ->
  volatility fm (mkDataFrame (raw_index data) cols) = Ok vol ->
  sv_compare_intra (labelled (mkDataFrame (raw_index data) cols) vol)
    (partition_of (labelled (mkDataFrame (raw_index data) cols) vol))
    ["High Volatility"; "Low Volatility"] = Ok comparison ->
  main yf_download sv_analyze sv_compare_intra fm dialogue
       (stocks, start_date, end_date) w =
  (Ok Success,
   mkWorld
     (heap w ++ [labelled (mkDataFrame (raw_index data) cols) vol])
     (files w ++ [("sweetviz_report.html", general);
                  ("sweetviz_volatility_report.html", comparison)])
     (stdout w ++ preamble dialogue ++
      show_html_prints "sweetviz_report.html" ++
      ["Sweetviz report generated: sweetviz_report.html";
       (nl ++ "Generating volatility comparison report...")%string] ++
      show_html_prints "sweetviz_volatility_report.html" ++
      ["Sweetviz volatility comparison report generated: sweetviz_volatility_report.html";
       (nl ++ "All reports have been successfully generated.")%string])).
Proof.
  intros Hd He Hl Ha Hv Hc.
  rewrite (main_after_fetch dialogue stocks start_date end_date w data cols Hd He Hl).
  unfold bind at 1.
  erewrite generate_sweetviz_report_run by (cbn [heap]; apply heap_fresh).
  rewrite Ha. unfold bind at 1. unfold print at 1. cbn [heap files stdout].
  unfold bind at 1.
  erewrite generate_volatility_comparison_run by (cbn [heap]; apply heap_fresh).
  rewrite Hv, Hc. cbn [heap files stdout].
  unfold bind, print, ret. cbn [heap files stdout].
  rewrite heap_set_fresh. f_equal. f_equal.
  - now rewrite <- !app_assoc.
  - rewrite <- !app_assoc. reflexivity.
Qed.

(** X3.  A failure of the general report is not caught: the run raises the
    report generator's exception and no file has been written. *)
Theorem main_general_report_failure
    (dialogue stocks : list string) (start_date end_date : string) (w : World)
    (data : RawData) (cols : list (string * column)) (e : exn) :
  yf_download stocks start_date end_date = Ok data ->
  raw_empty data = false ->
  raw_lookup "Adj Close" (raw_fields data) = Some cols ->
  sv_analyze (mkDataFrame (raw_index data) cols) = Raise e ->
  exists w',
    main yf_download sv_analyze sv_compare_intra fm dialogue
         (stocks, start_date, end_date) w = (Raise e, w') /\
    files w' = files w /\
    stdout w' = stdout w ++ preamble dialogue.
Proof.
  intros Hd He Hl Ha.
  rewrite (main_after_fetch dialogue stocks start_date end_date w data cols Hd He Hl).
  unfold bind at 1.
  erewrite generate_sweetviz_report_run by (cbn [heap]; apply heap_fresh).
  rewrite Ha. eexists. split; [reflexivity|]. split; reflexivity.
Qed.

Lemma float_columns_object (cols : list (string * column (num := num)))
    (n : string) (v : list string) :
  In (n, ObjectCol v) cols -> float_columns cols = Raise TypeError.
Proof.
  induction cols as [|[m [x|x]] rest IH]; simpl; intros H.
  - contradiction.
  - destruct H as [H|H]; [discriminate|]. now rewrite IH.
  - reflexivity.
Qed.

Lemma volatility_object (d : DataFrame (num := num)) (n : string) (v : list string) :
  In (n, ObjectCol v) (columns d) -> volatility fm d = Raise TypeError.
Proof.
  intros H. unfold volatility, pct_change.
  now rewrite (float_columns_object _ _ _ H).
Qed.

(** X4.  A failure of the comparison step is not caught either, and by then
    the general report is on disk: whether line 104 raises TypeError (a
    column of two or more strings) or the report generator raises, the run
    ends with that exception and the general report as its only new file;
    the last lines on the terminal are those of the general report and the
    notice that the comparison starts, and the closing success line is not
    printed. *)
Theorem main_comparison_failure
    (dialogue stocks : list string) (start_date end_date : string) (w : World)
    (data : RawData) (cols : list (string * column)) (general : Report) (e : exn) :
  yf_download stocks start_date end_date = Ok data ->
  raw_empty data = false ->
  raw_lookup "Adj Close" (raw_fields data) = Some cols ->
  sv_analyze (mkDataFrame (raw_index data) cols) = Ok general ->
  (e = TypeError /\
   exists n v, In (n, ObjectCol v) cols /\ 2 <= length v) \/
  (exists vol,
     volatility fm (mkDataFrame (raw_index data) cols) = Ok vol /\
     sv_compare_intra (labelled (mkDataFrame (raw_index data) cols) vol)
       (partition_of (labelled (mkDataFrame (raw_index data) cols) vol))
       ["High Volatility"; "Low Volatility"] = Raise e) ->
  exists w',
    main yf_download sv_analyze sv_compare_intra fm dialogue
         (stocks, start_date, end_date) w = (Raise e, w') /\
    files w' = files w ++ [("sweetviz_report.html", general)] /\
    stdout w' =
      stdout w ++ preamble dialogue ++
      show_html_prints "sweetviz_report.html" ++
      ["Sweetviz report generated: sweetviz_report.html";
       (nl ++ "Generating volatility comparison report...")%string].
Proof.
  intros Hd He Hl Ha Hfail.
  rewrite (main_after_fetch dialogue stocks start_date end_date w data cols Hd He Hl).
  unfold bind at 1.
  erewrite generate_sweetviz_report_run by (cbn [heap]; apply heap_fresh).
  rewrite Ha. unfold bind at 1. unfold print at 1. cbn [heap files stdout].
  unfold bind at 1.
  erewrite generate_volatility_comparison_run by (cbn [heap]; apply heap_fresh).
  destruct Hfail as [(-> & n & v & Hin & _)|(vol & Hv & Hc)].
  - rewrite (volatility_object (mkDataFrame (raw_index data) cols) n v Hin).
    eexists. split; [reflexivity|]. cbn [files stdout].
    split; [reflexivity|]. now rewrite <- !app_assoc.
  - rewrite Hv, Hc. eexists. split; [reflexivity|]. cbn [files stdout].
    split; [reflexivity|]. now rewrite <- !app_assoc.
Qed.

End Run.

(* ------------------------------------------------------------------ *)
(** ** What a failed or repeated comparison leaves behind *)

Section Rerun.

Context {num : Type} {F : Float64 num} {SV : Sweetviz}.
Variable Report : Type.
Variable sv_compare_intra :
  DataFrame (num := num) -> list bool -> list string -> result Report.
Variable fm : fill_method.

Local Abbreviation DF := (DataFrame (num := num)).
Local Abbreviation World := (world (num := num) Report).

Lemma assign_In (name : string) (c : column (num := num)) cols :
  In (name, c) (assign name c cols).
Proof.
  induction cols as [|[n c0] rest IH]; simpl; [now left|].
  destruct (String.eqb n name); [now left|now right].
Qed.

(** X5.  A frame with a column of two or more strings is refused before
    anything happens: the returns divide the second string by the first,
    which raises TypeError, and the frame, the files and the output are as
    they were. *)
Theorem object_column_rejected (r : ref) (filename : string) (w : World) (d : DF)
    (n : string) (v : list string) :
  nth_error (heap w) r = Some d ->
  In (n, ObjectCol v) (columns d) ->
  2 <= length v ->
  generate_volatility_comparison sv_compare_intra fm r filename w = (Raise TypeError, w).
Proof.
  intros Hd Hin _.
  rewrite (generate_volatility_comparison_run Report sv_compare_intra fm r filename w d Hd).
  now rewrite (volatility_object fm d n v Hin).
Qed.

(** X6.  When the report generator refuses the comparison, the exception
    leaves the function with no file written and nothing printed, but the
    caller's frame already carries the two new columns. *)
Theorem comparison_failure_keeps_columns (r : ref) (filename : string) (w : World)
    (d : DF) (vol : list (option num)) (e : exn) :
  nth_error (heap w) r = Some d ->
  volatility fm d = Ok vol ->
  sv_compare_intra (labelled d vol) (partition_of (labelled d vol))
    ["High Volatility"; "Low Volatility"] = Raise e ->
  exists w',
    generate_volatility_comparison sv_compare_intra fm r filename w = (Raise e, w') /\
    nth_error (heap w') r = Some (labelled d vol) /\
    scores_of (labelled d vol) = vol /\
    length (labels_of (labelled d vol)) = length vol /\
    files w' = files w /\
    stdout w' = stdout w.
Proof.
  intros Hd Hv Hc.
  rewrite (generate_volatility_comparison_run Report sv_compare_intra fm r filename w d Hd).
  rewrite Hv, Hc. eexists. split; [reflexivity|]. simpl.
  split; [eapply heap_set_same; exact Hd|].
  split; [apply scores_of_labelled|].
  split; [|split; reflexivity].
  rewrite labels_of_labelled. apply labels_length.
Qed.

(** X7.  The comparison cannot be made twice on one frame of two or more
    date rows: after a call that succeeded, a second call on the same
    reference raises TypeError, because the returns would divide the labels
    the first call added, and changes nothing. *)
Theorem second_comparison_raises (r : ref) (first second : string) (w w1 : World) (d : DF) :
  nth_error (heap w) r = Some d ->
  2 <= nrows d ->
  generate_volatility_comparison sv_compare_intra fm r first w = (Ok tt, w1) ->
  generate_volatility_comparison sv_compare_intra fm r second w1 = (Raise TypeError, w1).
Proof.
  intros Hd _ Hrun.
  rewrite (generate_volatility_comparison_run Report sv_compare_intra fm r first w d Hd)
    in Hrun.
  destruct (volatility fm d) as [vol|e]; [|discriminate].
  destruct (sv_compare_intra _ _ _) as [rep|e]; [|discriminate].
  injection Hrun as <-.
  erewrite generate_volatility_comparison_run
    by (simpl; eapply heap_set_same; exact Hd).
  rewrite (volatility_object fm (labelled d vol) "Volatility_Level"
             (np_where (gt vol (median vol)) "High Volatility" "Low Volatility")).
  - reflexivity.
  - unfold labelled, setitem. simpl. apply assign_In.
Qed.

End Rerun.

(* ------------------------------------------------------------------ *)
(** ** The size of the high group *)

Section HighGroup.

Local Open Scope R_scope.

Variable Report : Type.
Variable fm : fill_method.

Local Abbreviation cell := (option R).
Local Abbreviation DF := (DataFrame (num := R)).
Local Abbreviation World := (world (num := R) Report).

(** The partition vector is the comparison itself. *)
Lemma eq_str_np_where (cond : list bool) :
  eq_str (np_where cond "High Volatility" "Low Volatility") "High Volatility" = cond.
Proof.
  induction cond as [|[|] cond IH]; simpl; [reflexivity| |];
    unfold eq_str, np_where in *; simpl; now rewrite IH.
Qed.

Lemma partition_is_gt (d : DF) (vol : list cell) :
  partition_of (labelled d vol) = gt vol (median vol).
Proof. rewrite partition_of_labelled. apply eq_str_np_where. Qed.

Lemma count_gt (vol : list cell) (t : R) :
  length (filter (fun b : bool => b) (gt vol (Some t))) = length (Spec.above t (dropna vol)).
Proof.
  unfold gt, Spec.above. induction vol as [|[x|] vol IH]; simpl in *; auto.
  destruct (Rltb t x); simpl; now rewrite IH.
Qed.

Lemma count_gt_none (vol : list cell) :
  filter (fun b : bool => b) (gt vol None) = [].
Proof.
  unfold gt. induction vol as [|[x|] vol IH]; simpl; auto.
Qed.

Lemma above_perm (t : R) (l l' : list R) :
  Permutation l l' -> length (Spec.above t l) = length (Spec.above t l').
Proof.
  intros H. apply Permutation_length. unfold Spec.above.
  induction H; simpl; auto.
  - destruct (Rltb t x); auto.
  - destruct (Rltb t x), (Rltb t y); auto using perm_swap.
  - eapply Permutation_trans; eauto.
Qed.

(** In an ascending list nothing at or below position [j] exceeds a bound
    that the value at [j] does not exceed. *)
Lemma above_sorted (s : list R) (j : nat) (t : R) :
  StronglySorted Rle s -> (j < length s)%nat -> nth j s 0 <= t ->
  (length (Spec.above t s) <= length s - (j + 1))%nat.
Proof.
  intros Hs. revert j. induction Hs as [|a s Hs IH Ha]; intros j Hj Ht.
  - simpl in Hj. lia.
  - assert (Hat : a <= t).
    { destruct j as [|j]; [exact Ht|]. simpl in Ht, Hj.
      rewrite Forall_forall in Ha.
      assert (a <= nth j s 0) by (apply Ha, nth_In; lia). lra. }
    unfold Spec.above in *. simpl.
    replace (Rltb t a) with false by (symmetry; apply Rltb_false; exact Hat).
    destruct j as [|j]; simpl.
    + pose proof (filter_length_le (fun x => Rltb t x) s). lia.
    + simpl in Ht, Hj. specialize (IH j ltac:(lia) Ht).
      replace (j + 1)%nat with (S j) in IH by lia. lia.
Qed.

Lemma sorted_nth_le (s : list R) (i j : nat) :
  StronglySorted Rle s -> (i <= j)%nat -> (j < length s)%nat ->
  nth i s 0 <= nth j s 0.
Proof.
  intros Hs. revert i j. induction Hs as [|a s Hs IH Ha]; intros i j Hij Hj.
  - simpl in Hj. lia.
  - destruct i as [|i], j as [|j]; simpl in *; try lia; try lra.
    + rewrite Forall_forall in Ha. apply Ha, nth_In. lia.
    + apply IH; lia.
Qed.

(** At most half of the values lie strictly above their median. *)
Lemma above_median (xs : list R) (t : R) :
  median_sorted (sort xs) = Some t ->
  (2 * length (Spec.above t xs) <= length xs)%nat.
Proof.
  intros Hm.
  pose proof (sort_sorted xs) as Hs.
  apply (Sorted_StronglySorted Rle_trans') in Hs.
  rewrite <- (above_perm t _ _ (sort_perm xs)), <- (sort_length xs).
  set (s := sort xs) in *.
  destruct (Nat.Even_or_Odd (length s)) as [[k Hk]|[k Hk]].
  - destruct k as [|k].
    + unfold median_sorted in Hm.
      replace (length s) with 0%nat in Hm by lia. discriminate.
    + rewrite (median_sorted_even s k) in Hm by lia. injection Hm as <-.
      assert (nth k s 0 <= nth (k + 1) s 0) by (apply sorted_nth_le; auto; lia).
      assert (Hb : (length (Spec.above ((nth k s 0 + nth (k + 1) s 0) / 2)%R s)
                    <= length s - (k + 1))%nat)
        by (apply above_sorted; auto; [lia|lra]).
      lia.
  - rewrite (median_sorted_odd s k) in Hm by lia. injection Hm as <-.
    assert (Hb : (length (Spec.above (nth k s 0%R) s) <= length s - (k + 1))%nat)
      by (apply above_sorted; auto; [lia|lra]).
    lia.
Qed.

(** X8.  The "High Volatility" group never holds more than half of the rows
    that have a score: twice the number of True entries of the partition
    vector is at most the number of defined scores. *)
Theorem high_group_at_most_half (r : ref) (w w' : World) (d d' : DF) :
  nth_error (heap w) r = Some d ->
  classify_volatility fm r w = (Ok tt, w') ->
  nth_error (heap w') r = Some d' ->
  (2 * length (filter (fun b : bool => b) (partition_of d'))
   <= length (dropna (scores_of d')))%nat.
Proof.
  intros Hd Hrun Hd'.
  destruct (classify_shape Report fm r w w' d d' Hd Hrun Hd') as (vol & Hv & -> & _).
  rewrite partition_is_gt, scores_of_labelled.
  destruct (median vol) as [t|] eqn:Hm.
  - rewrite count_gt. rewrite median_exact in Hm. now apply above_median.
  - rewrite count_gt_none. simpl. lia.
Qed.

(** ** Equal scores *)

Lemma median_of_equal (xs : list R) (c : R) :
  (forall x, In x xs -> x = c) -> xs <> [] ->
  median_sorted (sort xs) = Some c.
Proof.
  intros Hall Hne.
  assert (Hs : forall x, In x (sort xs) -> x = c)
    by (intros x Hx; apply Hall; eapply Permutation_in; [apply sort_perm|exact Hx]).
  assert (Hlen : length (sort xs) <> 0%nat)
    by (rewrite sort_length; destruct xs; [contradiction|discriminate]).
  set (s := sort xs) in *.
  destruct (Nat.Even_or_Odd (length s)) as [[k Hk]|[k Hk]].
  - destruct k as [|k]; [lia|].
    rewrite (median_sorted_even s k) by lia.
    rewrite (Hs (nth k s 0)) by (apply nth_In; lia).
    rewrite (Hs (nth (k + 1) s 0)) by (apply nth_In; lia).
    f_equal. lra.
  - rewrite (median_sorted_odd s k) by lia.
    now rewrite (Hs (nth k s 0)) by (apply nth_In; lia).
Qed.

Lemma gt_missing_threshold (vol : list cell) :
  gt vol None = repeat false (length vol).
Proof.
  unfold gt. induction vol as [|[x|] vol IH]; simpl; [reflexivity| |]; now rewrite IH.
Qed.

Lemma gt_none_above (vol : list cell) (t : R) :
  (forall x, In x (dropna vol) -> x <= t) ->
  gt vol (Some t) = repeat false (length vol).
Proof.
  unfold gt. induction vol as [|[x|] vol IH]; intros H; simpl in *; [reflexivity| |].
  - rewrite IH by auto.
    replace (Rltb t x) with false by (symmetry; apply Rltb_false; auto).
    reflexivity.
  - now rewrite IH.
Qed.

Lemma gt_of_equal (vol : list cell) (c : R) :
  (forall x, In x (dropna vol) -> x = c) ->
  gt vol (median vol) = repeat false (length vol).
Proof.
  intros Hall. rewrite median_exact.
  destruct (dropna vol) as [|x0 xs] eqn:E.
  - apply gt_missing_threshold.
  - rewrite (median_of_equal (x0 :: xs) c Hall) by discriminate.
    apply gt_none_above. rewrite E. intros x Hx. rewrite (Hall x Hx). lra.
Qed.

(** X9.  When all defined scores are equal, no row is above the median:
    every row is labelled "Low Volatility" and the partition vector is all
    False, so the high group is empty. *)
Theorem equal_scores_all_low (r : ref) (w w' : World) (d d' : DF) (c : R) :
  nth_error (heap w) r = Some d ->
  classify_volatility fm r w = (Ok tt, w') ->
  nth_error (heap w') r = Some d' ->
  (forall x, In x (dropna (scores_of d')) -> x = c) ->
  labels_of d' = repeat "Low Volatility" (nrows d) /\
  partition_of d' = repeat false (nrows d).
Proof.
  intros Hd Hrun Hd'.
  destruct (classify_shape Report fm r w w' d d' Hd Hrun Hd') as (vol & Hv & -> & _).
  rewrite scores_of_labelled, labels_of_labelled, partition_is_gt.
  intros Hall. rewrite (gt_of_equal vol c Hall).
  rewrite (volatility_length fm d vol Hv), np_where_all_false. auto.
Qed.

(** X10.  A table of exactly two date rows, the least the returns need,
    never has a high row: the first row has no score, the second is the only
    one that can have one and equals the median, so both rows are labelled
    "Low Volatility" and the partition vector is False twice. *)
Theorem two_rows_all_low (r : ref) (w w' : World) (d d' : DF) :
  nth_error (heap w) r = Some d ->
  classify_volatility fm r w = (Ok tt, w') ->
  nth_error (heap w') r = Some d' ->
  nrows d = 2%nat ->
  labels_of d' = ["Low Volatility"; "Low Volatility"] /\
  partition_of d' = [false; false].
Proof.
  intros Hd Hrun Hd' Hn.
  destruct (classify_shape Report fm r w w' d d' Hd Hrun Hd') as (vol & Hv & -> & _).
  rewrite labels_of_labelled, partition_is_gt.
  pose proof (volatility_length fm d vol Hv) as Hlen.
  pose proof (volatility_first fm d vol Hv ltac:(lia)) as H0.
  destruct vol as [|c0 [|c1 [|c2 vol]]]; simpl in Hlen; try lia.
  simpl in H0. injection H0 as ->.
  assert (Hall : forall x, In x (dropna [None; c1]) ->
                           x = match c1 with Some s => s | None => 0 end).
  { destruct c1 as [s|]; simpl; intros x Hx;
      [destruct Hx as [Hx|[]]; now subst|contradiction]. }
  rewrite (gt_of_equal [None; c1] _ Hall). auto.
Qed.

End HighGroup.

(* ------------------------------------------------------------------ *)
(** ** Where a return is missing *)

Section MissingReturns.

Context {num : Type} {F : Float64 num}.

Local Abbreviation cell := (option num).

Lemma combine_shift_nth (l : list cell) (prev : cell) (i : nat) :
  nth_error (combine l (firstn (length l) (prev :: l))) i =
  match nth_error l i with
  | Some x => Some (x, nth i (prev :: l) None)
  | None => None
  end.
Proof.
  revert prev i. induction l as [|a l IH]; intros prev i.
  - now destruct i.
  - destruct i as [|i]; [reflexivity|].
    change (nth_error (combine l (firstn (length l) (a :: l))) i =
            match nth_error l i with
            | Some x => Some (x, nth i (a :: l) None)
            | None => None
            end).
    apply IH.
Qed.

Lemma ffill_from_len (last : cell) (v : list cell) :
  length (ffill_from last v) = length v.
Proof.
  revert last. induction v as [|c v IH]; intros last; simpl; [reflexivity|].
  now rewrite IH.
Qed.

(** After filling, a cell is still missing only if nothing was defined
    before it. *)
Lemma ffill_from_missing (last : cell) (v : list cell) (i : nat) :
  i < length v ->
  (nth_error (ffill_from last v) i = Some None <->
   last = None /\ forall j, j <= i -> nth_error v j = Some None).
Proof.
  revert last i. induction v as [|c v IH]; intros last i Hi; simpl in Hi; [lia|].
  destruct i as [|i]; simpl.
  - split.
    + intros H. destruct c; [discriminate|]. injection H as ->.
      split; [reflexivity|]. intros j Hj. now replace j with 0 by lia.
    + intros [-> H]. specialize (H 0 (Nat.le_refl 0)). simpl in H.
      injection H as ->. reflexivity.
  - rewrite IH by lia. split.
    + intros [Hc H]. destruct c; [discriminate|]. split; [exact Hc|].
      intros [|j] Hj; [reflexivity|]. simpl. apply H. lia.
    + intros [-> H]. pose proof (H 0 ltac:(lia)) as H0. simpl in H0.
      injection H0 as ->. split; [reflexivity|].
      intros j Hj. apply (H (S j)). lia.
Qed.

Lemma nth_error_defined {A} (l : list A) (i : nat) :
  i < length l -> exists x, nth_error l i = Some x.
Proof.
  intros Hi. destruct (nth_error l i) as [x|] eqn:E; [eauto|].
  apply nth_error_None in E. lia.
Qed.

End MissingReturns.

Section PaddedGap.

Local Open Scope R_scope.

(** A return is missing when one of the two values it is computed from
    is. *)
Lemma pct_change_col_nth (fm : fill_method) (v : list (option R)) (i : nat)
    (a b : option R) :
  nth_error (match fm with Pad => ffill v | NoFill => v end) (S i) = Some a ->
  nth_error (match fm with Pad => ffill v | NoFill => v end) i = Some b ->
  (nth_error (pct_change_col fm v) (S i) = Some None <-> a = None \/ b = None).
Proof.
  intros Ha Hb. unfold pct_change_col, shift.
  rewrite nth_error_map, combine_shift_nth, Ha. simpl.
  rewrite (nth_error_nth _ _ _ Hb).
  destruct a, b; simpl; split; intros H; try discriminate; auto;
    destruct H; discriminate.
Qed.

(** X12.  Which returns are undefined, for a row after the first, in a
    column where no price is zero.  Without padding: exactly those where the
    price of the row or of the row before is missing.  With padding (the
    default up to pandas 2.x): exactly those where no price has been seen
    yet, in any row before; a gap further down leaves no hole in the
    returns. *)
Theorem return_missing_iff (v : list (option R)) (i : nat) :
  (forall x, In (Some x) v -> x <> 0) ->
  (S i < length v)%nat ->
  (nth_error (pct_change_col NoFill v) (S i) = Some None <->
   nth_error v (S i) = Some None \/ nth_error v i = Some None) /\
  (nth_error (pct_change_col Pad v) (S i) = Some None <->
   forall j, (j <= i)%nat -> nth_error v j = Some None).
Proof.
  intros _ Hi. split.
  - destruct (nth_error_defined v (S i) Hi) as [a Ha].
    destruct (nth_error_defined v i ltac:(lia)) as [b Hb].
    rewrite (pct_change_col_nth NoFill v i a b Ha Hb), Ha, Hb.
    split; (intros [H|H]; [left|right]; congruence).
  - assert (Hl : length (ffill v) = length v) by apply ffill_from_len.
    destruct (nth_error_defined (ffill v) (S i) ltac:(lia)) as [a Ha].
    destruct (nth_error_defined (ffill v) i ltac:(lia)) as [b Hb].
    rewrite (pct_change_col_nth Pad v i a b Ha Hb).
    pose proof (ffill_from_missing None v i ltac:(lia)) as Hprev.
    pose proof (ffill_from_missing None v (S i) Hi) as Hcur.
    fold (ffill v) in Hprev, Hcur. rewrite Ha in Hcur. rewrite Hb in Hprev.
    split.
    + intros [-> | ->].
      * destruct Hcur as [Hcur _]. destruct (Hcur eq_refl) as [_ H].
        intros j Hj. apply H. lia.
      * destruct Hprev as [Hprev _]. now destruct (Hprev eq_refl).
    + intros H. right. destruct Hprev as [_ Hprev].
      assert (Some b = Some None) by (apply Hprev; auto). congruence.
Qed.

(** X13.  With padding, a price missing right after a defined, non-zero one
    counts as unchanged: the return of that row is 0, not undefined. *)
Theorem padded_gap_return_zero (v : list (option R)) (i : nat) (q : R) :
  nth_error v i = Some (Some q) ->
  nth_error v (S i) = Some None ->
  q <> 0 ->
  nth_error (pct_change_col Pad v) (S i) = Some (Some 0).
Proof.
  intros Hq Hgap Hq0.
  assert (Hprev : nth_error (ffill v) i = Some (Some q))
    by (now apply ffill_from_defined).
  assert (Hcur : nth_error (ffill v) (S i) = Some (Some q)).
  { clear Hq0. unfold ffill in *. generalize (@None R) as last. revert i Hq Hgap Hprev.
    induction v as [|c v IH]; intros i Hq Hgap Hprev last; [destruct i; discriminate|].
    destruct i as [|i].
    - simpl in Hq. injection Hq as ->. destruct v as [|c' v]; [discriminate|].
      simpl in Hgap. injection Hgap as ->. reflexivity.
    - simpl. apply (IH i); auto.
      simpl in Hprev. now apply ffill_from_defined. }
  unfold pct_change_col, shift.
  rewrite nth_error_map, combine_shift_nth, Hcur. simpl.
  rewrite (nth_error_nth _ _ _ Hprev). simpl.
  do 2 f_equal. now field.
Qed.

End PaddedGap.

(* ------------------------------------------------------------------ *)
(** ** The prompt loop *)

Section PromptLoop.

Variable str_upper : string -> string.
Variable str_strip : string -> string.
Variable strptime_ok : string -> bool.

Local Abbreviation loop := (prompt_loop str_upper str_strip strptime_ok).
Local Abbreviation tickers := (tickers_of str_upper str_strip).

Lemma tickers_not_blank (line t : string) : In t (tickers line) -> t <> "".
Proof.
  unfold tickers_of. rewrite in_map_iff. intros (p & <- & Hp).
  apply filter_In in Hp. destruct Hp as [_ Hp].
  intros E. rewrite E in Hp. discriminate.
Qed.

Lemma split_comma_nonempty (s : string) : split_comma s <> [].
Proof.
  induction s as [|c s IH]; simpl; [discriminate|].
  destruct (Ascii.eqb c ","); [discriminate|].
  destruct (split_comma s); discriminate.
Qed.

(** X17.  Splitting at the commas loses nothing: joining the pieces with
    commas gives the line back, and no piece contains a comma. *)
Theorem split_comma_join (s : string) :
  String.concat "," (split_comma s) = s /\
  forall p, In p (split_comma s) -> ~ In ","%char (list_ascii_of_string p).
Proof.
  induction s as [|c s [IHj IHc]]; simpl.
  - split; [reflexivity|]. intros p [<-|[]]. simpl. auto.
  - pose proof (split_comma_nonempty s) as Hne.
    destruct (Ascii.eqb c ",") eqn:E.
    + apply Ascii.eqb_eq in E. subst c. split.
      * destruct (split_comma s) as [|p ps] eqn:Es; [contradiction|].
        simpl in *. now rewrite IHj.
      * intros p [<-|Hp]; [simpl; auto|now apply IHc].
    + apply Ascii.eqb_neq in E.
      destruct (split_comma s) as [|p ps] eqn:Es; [contradiction|]. split.
      * simpl in *. destruct ps; simpl in *; now rewrite <- IHj.
      * intros q [<-|Hq].
        -- simpl. intros [H|H]; [congruence|].
           apply (IHc p); [now left|exact H].
        -- apply IHc. now right.
Qed.

(** The loop, one round at a time. *)
Lemma prompt_loop_round (n : nat) :
  forall stdin out res rest out',
    length stdin <= n ->
    loop stdin out = (res, rest, out') ->
    match res with
    | Ok (stocks, start_date, end_date) =>
        exists skipped line s e,
          stdin = skipped ++ line :: s :: e :: rest /\
          stocks = tickers line /\ stocks <> [] /\
          start_date = str_strip s /\ end_date = str_strip e /\
          strptime_ok start_date = true /\ strptime_ok end_date = true
    | Raise e => e = EOFError /\ rest = []
    end /\
    exists printed, out' = out ++ printed /\ printed <> [].
Proof.
  induction n as [|n IH]; intros stdin out res rest out' Hn Hrun.
  - destruct stdin; [|simpl in Hn; lia]. simpl in Hrun.
    injection Hrun as <- <- <-. split; [auto|].
    eexists. split; [reflexivity|discriminate].
  - destruct stdin as [|line stdin].
    { simpl in Hrun. injection Hrun as <- <- <-. split; [auto|].
      eexists. split; [reflexivity|discriminate]. }
    simpl in Hrun, Hn.
    destruct (tickers line) as [|t ts] eqn:Et.
    { apply IH in Hrun; [|lia]. destruct Hrun as [Hres (printed & -> & _)].
      split.
      - destruct res as [[[stocks sd] ed]|e]; [|exact Hres].
        destruct Hres as (skipped & l & s & e & -> & H).
        exists (line :: skipped), l, s, e. split; [reflexivity|exact H].
      - eexists. rewrite <- app_assoc. split; [reflexivity|discriminate]. }
    destruct stdin as [|s stdin].
    { injection Hrun as <- <- <-. split; [auto|].
      eexists. split; [reflexivity|discriminate]. }
    destruct stdin as [|e stdin].
    { injection Hrun as <- <- <-. split; [auto|].
      eexists. split; [reflexivity|discriminate]. }
    destruct (strptime_ok (str_strip s) && strptime_ok (str_strip e)) eqn:Ed.
    + injection Hrun as <- <- <-. apply andb_true_iff in Ed. destruct Ed as [E1 E2].
      split.
      * exists [], line, s, e. simpl. rewrite Et.
        repeat split; auto. discriminate.
      * eexists. split; [reflexivity|discriminate].
    + simpl in Hn. apply IH in Hrun; [|lia].
      destruct Hrun as [Hres (printed & -> & _)]. split.
      * destruct res as [[[stocks sd] ed]|e']; [|exact Hres].
        destruct Hres as (skipped & l & s' & e' & -> & H).
        exists (line :: s :: e :: skipped), l, s', e'. split; [reflexivity|exact H].
      * eexists. rewrite <- app_assoc. split; [reflexivity|discriminate].
Qed.

(** X14.  What the prompt loop returns comes from the last three lines it
    read: the ticker line and the two date lines of the one round that
    passed.  The ticker list is not empty, no ticker is the empty string,
    both dates are the stripped lines and both passed the date check;
    every line before that round was consumed and discarded. *)
Theorem prompt_loop_answer (stdin out rest out' : list string)
    (stocks : list string) (start_date end_date : string) :
  prompt_loop str_upper str_strip strptime_ok stdin out
    = (Ok (stocks, start_date, end_date), rest, out') ->
  exists skipped line s e,
    stdin = skipped ++ line :: s :: e :: rest /\
    stocks = tickers_of str_upper str_strip line /\
    stocks <> [] /\
    (forall t, In t stocks -> t <> "") /\
    start_date = str_strip s /\
    end_date = str_strip e /\
    strptime_ok start_date = true /\
    strptime_ok end_date = true.
Proof.
  intros Hrun.
  destruct (prompt_loop_round (length stdin) stdin out _ _ _ (Nat.le_refl _) Hrun)
    as [(skipped & line & s & e & H1 & H2 & H3 & H4 & H5 & H6 & H7) _].
  exists skipped, line, s, e. repeat split; auto.
  intros t Ht. subst stocks. now apply (tickers_not_blank line).
Qed.


(** X15.  The prompt loop raises only when the input runs out, and then it
    is EOFError with nothing left to read; a date that does not parse is
    never an exception of the loop.  Whatever the outcome, at least one
    prompt has been written after what was on the terminal before. *)
Theorem prompt_loop_raises_only_eof (stdin out : list string) :
  exists res rest printed,
    prompt_loop str_upper str_strip strptime_ok stdin out = (res, rest, out ++ printed) /\
    printed <> [] /\
    (forall e, res = Raise e -> e = EOFError /\ rest = []).
Proof.
  destruct (prompt_loop str_upper str_strip strptime_ok stdin out)
    as [[res rest] out'] eqn:Hrun.
  destruct (prompt_loop_round (length stdin) stdin out _ _ _ (Nat.le_refl _) Hrun)
    as [Hres (printed & -> & Hne)].
  exists res, rest, printed. split; [reflexivity|]. split; [exact Hne|].
  intros e ->. exact Hres.
Qed.

End PromptLoop.

Section NoData.

Context {num : Type} {F : Float64 num} {SV : Sweetviz}.
Variable Report : Type.
Variable yf_download : list string -> string -> string -> result (RawData (num := num)).
Variable sv_analyze : DataFrame (num := num) -> result Report.
Variable sv_compare_intra :
  DataFrame (num := num) -> list bool -> list string -> result Report.
Variable fm : fill_method.
Variable str_upper : string -> string.
Variable str_strip : string -> string.
Variable strptime_ok : string -> bool.

Local Abbreviation World := (world (num := num) Report).


End NoData.

(* ------------------------------------------------------------------ *)
(** ** Scores in binary64 *)

Section Binary64Scores.

Variable Report : Type.
Variable fm : fill_method.

(** A square root is NaN or at least zero. *)
Lemma sqrt_not_negative (x : float) :
  PrimFloat.is_nan (PrimFloat.sqrt x) = false ->
  PrimFloat.leb 0 (PrimFloat.sqrt x) = true.
Proof.
  unfold PrimFloat.is_nan. rewrite FloatAxioms.eqb_spec, FloatAxioms.leb_spec, FloatAxioms.sqrt_spec.
  change (Prim2SF 0) with (S754_zero false).
  unfold SF64sqrt, SFsqrt.
  destruct (Prim2SF x) as [s|[|]| |[|] m e].
  - reflexivity.
  - discriminate.
  - reflexivity.
  - discriminate.
  - discriminate.
  - destruct (SFsqrt_core_binary prec emax (Z.pos m) e) as [[mz ez] lz].
    unfold binary_round_aux.
    destruct (shr_fexp prec emax mz ez lz) as [mrs1 e1].
    destruct (shr_fexp prec emax _ e1 loc_Exact) as [mrs2 e2].
    destruct (shr_m mrs2); [reflexivity| |discriminate].
    destruct (e2 <=? emax - prec)%Z; reflexivity.
Qed.

Lemma nanstd_not_negative (row : list (option float)) (s : float) :
  nanstd 1 row = Some s ->
  PrimFloat.is_nan s = false /\ PrimFloat.leb 0 s = true.
Proof.
  unfold nanstd, nan_to_missing.
  destruct (nanvar 1 row) as [v|]; simpl; [|discriminate].
  destruct (PrimFloat.is_nan (PrimFloat.sqrt v)) eqn:E; [discriminate|].
  intros H. injection H as <-. split; [exact E|now apply sqrt_not_negative].
Qed.

(** X11.  Over binary64 a score that is defined is a number, not NaN, and
    it is never negative: it is the square root of a variance. *)
Theorem score_not_negative (r : ref) (w w' : world (num := float) Report)
    (d d' : DataFrame (num := float)) (i : nat) (s : float) :
  nth_error (heap w) r = Some d ->
  classify_volatility fm r w = (Ok tt, w') ->
  nth_error (heap w') r = Some d' ->
  nth_error (scores_of d') i = Some (Some s) ->
  PrimFloat.is_nan s = false /\ PrimFloat.leb 0 s = true.
Proof.
  intros Hd Hrun Hd' Hs.
  destruct (classify_shape Report fm r w w' d d' Hd Hrun Hd') as (vol & Hv & -> & _).
  rewrite scores_of_labelled in Hs.
  destruct (float_columns (columns d)) as [cols|e] eqn:Hc.
  - rewrite (volatility_numeric fm d cols Hc) in Hv. injection Hv as <-.
    apply nth_error_In, in_map_iff in Hs. destruct Hs as (j & Hj & _).
    exact (nanstd_not_negative _ s Hj).
  - unfold volatility, pct_change in Hv. rewrite Hc in Hv. discriminate.
Qed.

End Binary64Scores.

(* ------------------------------------------------------------------ *)
(** ** Concrete runs *)

Import Example.

(** The classifier on the two-ticker table, in doubles: the first row has no
    score and is labelled all the same. *)
Example run_prices :
  run NoFill prices = (Ok tt, world_of (after NoFill prices)) /\
  map notna (scores_of (after NoFill prices)) = [false; true; true; true] /\
  labels_of (after NoFill prices) =
    ["Low Volatility"; "High Volatility"; "Low Volatility"; "Low Volatility"].
Proof. vm_compute. repeat split. Qed.

(** With padding the gap in GOOG is filled from the row above; without it
    the two returns next to the gap are missing. *)
Example gappy_returns :
  option_map (map notna) (lookup_returns Pad gappy "GOOG")
    = Some [false; true; true; true] /\
  option_map (map notna) (lookup_returns NoFill gappy "GOOG")
    = Some [false; false; false; true].
Proof. vm_compute. split; reflexivity. Qed.

(** A whole run that succeeds writes the two reports, the second from the
    frame the classifier has extended. *)
Example main_success :
  let out := main with_data count_rows count_high NoFill dialogue
               (["AAPL"; "MSFT"], "2024-01-01", "2024-01-10") (mkWorld [] [] []) in
  fst out = Ok Success /\
  files (snd out) = [("sweetviz_report.html", 4); ("sweetviz_volatility_report.html", 1)] /\
  option_map (fun d => map fst (columns d)) (nth_error (heap (snd out)) 0)
    = Some ["AAPL"; "MSFT"; "Volatility"; "Volatility_Level"].
Proof. vm_compute. repeat split. Qed.

(** The worked example of the specification: scores 0.01, 0.02, 0.03, 0.04
    have median 0.025; the two upper rows are high, the two lower ones low. *)
Example spec_scores_median :
  median ExactExample.spec_scores = Some 0.025%R /\
  np_where (gt ExactExample.spec_scores (median ExactExample.spec_scores))
           "High Volatility" "Low Volatility"
    = ["Low Volatility"; "Low Volatility"; "High Volatility"; "High Volatility"].
Proof.
  assert (Hm : median ExactExample.spec_scores = Some 0.025%R).
  { rewrite median_exact.
    rewrite (sort_dropna_unique ExactExample.spec_scores
               [0.01; 0.02; 0.03; 0.04]%R).
    - rewrite (median_sorted_even _ 1) by reflexivity. simpl. f_equal. lra.
    - reflexivity.
    - repeat constructor; lra. }
  split; [exact Hm|]. rewrite Hm. unfold ExactExample.spec_scores. simpl.
  replace (Rltb 0.025 0.01) with false by (symmetry; apply Rltb_false; lra).
  replace (Rltb 0.025 0.02) with false by (symmetry; apply Rltb_false; lra).
  replace (Rltb 0.025 0.03) with true by (symmetry; apply Rltb_true; lra).
  replace (Rltb 0.025 0.04) with true by (symmetry; apply Rltb_true; lra).
  reflexivity.
Qed.

(** C4, counterexample.  A table of two tickers and four days has four rows
    of returns, not three, with or without padding. *)
Lemma pct_change_same_row_count :
  (length (columns prices) = 2 /\ nrows prices = 4) /\
  (exists rs, pct_change NoFill prices = Ok rs /\
              nrows rs = 4 /\ nrows rs <> nrows prices - 1) /\
  (exists rs, pct_change Pad prices = Ok rs /\
              nrows rs = 4 /\ nrows rs <> nrows prices - 1).
Proof.
  split; [split; reflexivity|].
  split; eexists; (split; [vm_compute; reflexivity|]); split;
    [reflexivity|discriminate|reflexivity|discriminate].
Qed.

(** C5, counterexample.  One ticker column: lines 104-106 return normally
    and label every row. *)
Lemma one_ticker_is_classified :
  length (columns one_ticker) = 1 /\
  run NoFill one_ticker = (Ok tt, world_of (after NoFill one_ticker)) /\
  run Pad one_ticker = (Ok tt, world_of (after Pad one_ticker)) /\
  labels_of (after NoFill one_ticker)
    = ["Low Volatility"; "Low Volatility"; "Low Volatility"] /\
  labels_of (after Pad one_ticker)
    = ["Low Volatility"; "Low Volatility"; "Low Volatility"].
Proof. vm_compute. repeat split. Qed.

(** C6, counterexample.  After the call the caller's own frame, the object
    at reference 0, has two more columns than before. *)
Lemma input_frame_is_mutated :
  nth_error (heap (world_of prices)) 0 = Some prices /\
  map fst (columns prices) = ["AAPL"; "MSFT"] /\
  option_map (fun d => map fst (columns d)) (frame_after NoFill prices)
    = Some ["AAPL"; "MSFT"; "Volatility"; "Volatility_Level"] /\
  option_map (fun d => map fst (columns d)) (frame_after Pad prices)
    = Some ["AAPL"; "MSFT"; "Volatility"; "Volatility_Level"].
Proof. vm_compute. repeat split. Qed.

(** C7, counterexample.  The first row has an undefined score and carries a
    label: four rows are labelled, three have a score. *)
Lemma undefined_row_is_labelled :
  fst (run NoFill prices) = Ok tt /\
  nth_error (scores_of (after NoFill prices)) 0 = Some None /\
  nth_error (labels_of (after NoFill prices)) 0 = Some "Low Volatility" /\
  length (labels_of (after NoFill prices)) = 4 /\
  length (filter notna (scores_of (after NoFill prices))) = 3 /\
  fst (run Pad prices) = Ok tt /\
  nth_error (scores_of (after Pad prices)) 0 = Some None /\
  nth_error (labels_of (after Pad prices)) 0 = Some "Low Volatility".
Proof. vm_compute. repeat split. Qed.

Lemma run_after (fm : fill_method) (d : DataFrame (num := float)) :
  fst (run fm d) = Ok tt ->
  frame_after fm d = Some (after fm d) ->
  nth_error (heap (world_of d)) 0 = Some d /\
  classify_volatility fm 0 (world_of d) = (Ok tt, snd (run fm d)) /\
  nth_error (heap (snd (run fm d))) 0 = Some (after fm d).
Proof.
  intros H1 H2. split; [reflexivity|]. split; [|exact H2].
  unfold run in *. destruct (classify_volatility fm 0 (world_of d)) as [res w'].
  simpl in *. now subst res.
Qed.

(** C10 on the table with a gap. *)
Lemma undefined_score_labelled_low_witness :
  nth_error (scores_of (after Pad gappy)) 0 = Some None /\
  nth_error (labels_of (after Pad gappy)) 0 = Some "Low Volatility" /\
  nth_error (partition_of (after Pad gappy)) 0 = Some false.
Proof.
  destruct (run_after Pad gappy) as (H1 & H2 & H3);
    [vm_compute; reflexivity|vm_compute; reflexivity|].
  destruct (undefined_score_labelled_low unit Pad 0 _ _ _ _ H1 H2 H3)
    as (_ & _ & _ & _ & _ & _ & Hfirst & Hlow & _).
  assert (H0 : nth_error (scores_of (after Pad gappy)) 0 = Some None)
    by (apply Hfirst; vm_compute; lia).
  destruct (Hlow 0 H0) as [Hl Hp]. auto.
Defined.

(** C5 on the one-ticker table. *)
Lemma small_table_all_low_witness :
  exists w' d',
    classify_volatility NoFill 0 (world_of one_ticker) = (Ok tt, w') /\
    nth_error (heap w') 0 = Some d' /\
    scores_of d' = [None; None; None] /\
    labels_of d' = ["Low Volatility"; "Low Volatility"; "Low Volatility"] /\
    partition_of d' = [false; false; false].
Proof.
  apply (small_table_all_low unit NoFill 0 (world_of one_ticker) one_ticker
           [("AAPL", [Some 100%float; Some 101%float; Some 99%float])]).
  - reflexivity.
  - reflexivity.
  - left. simpl. lia.
Defined.

(** C6 on the two-ticker table. *)
Lemma classifier_assigns_in_place_witness :
  index (after NoFill prices) = index prices /\
  lookup "AAPL" (columns (after NoFill prices)) = lookup "AAPL" (columns prices) /\
  lookup "MSFT" (columns (after NoFill prices)) = lookup "MSFT" (columns prices).
Proof.
  destruct (run_after NoFill prices) as (H1 & H2 & H3);
    [vm_compute; reflexivity|vm_compute; reflexivity|].
  destruct (classifier_assigns_in_place unit NoFill 0 _ _ _ _ H1 H2 H3)
    as (_ & _ & Hidx & Hcols & _).
  split; [exact Hidx|].
  split; apply Hcols; discriminate.
Defined.

(** C7 on the two-ticker table. *)
Lemma labels_partition_all_rows_witness :
  (nth_error (labels_of (after NoFill prices)) 0 = Some "High Volatility" \/
   nth_error (labels_of (after NoFill prices)) 0 = Some "Low Volatility") /\
  (nth_error (labels_of (after NoFill prices)) 3 = Some "High Volatility" \/
   nth_error (labels_of (after NoFill prices)) 3 = Some "Low Volatility").
Proof.
  destruct (run_after NoFill prices) as (H1 & H2 & H3);
    [vm_compute; reflexivity|vm_compute; reflexivity|].
  pose proof (labels_partition_all_rows unit NoFill 0 _ _ _ _ H1 H2 H3) as H.
  split.
  - destruct (H 0) as [[Hall _] _]. apply Hall. vm_compute. lia.
  - destruct (H 3) as [[Hall _] _]. apply Hall. vm_compute. lia.
Defined.


Lemma exact_run (fm : fill_method) :
  nth_error (heap ExactExample.world0) 0 = Some ExactExample.prices /\
  classify_volatility fm 0 ExactExample.world0 = (Ok tt, ExactExample.world1 fm) /\
  nth_error (heap (ExactExample.world1 fm)) 0 = Some (ExactExample.classified fm).
Proof.
  split; [reflexivity|]. split; [|reflexivity].
  rewrite (classify_volatility_run unit fm 0 ExactExample.world0
             ExactExample.prices eq_refl).
  rewrite (volatility_numeric fm ExactExample.prices
             [("AAPL", ExactExample.aapl); ("MSFT", ExactExample.msft)] eq_refl).
  reflexivity.
Qed.

(** Lines 104-106 on a table of float columns over exact numbers. *)
Lemma exact_run_numeric (fm : fill_method) (d : DataFrame (num := R))
    (cols : list (string * list (option R))) :
  float_columns (columns d) = Ok cols ->
  classify_volatility fm 0 (mkWorld (Report := unit) [d] [] []) =
    (Ok tt,
     mkWorld [labelled d (map (fun i => nanstd 1 (row_at (returns fm cols) i))
                              (seq 0 (nrows d)))] [] []).
Proof.
  intros Hc.
  rewrite (classify_volatility_run unit fm 0 (mkWorld [d] [] []) d eq_refl).
  now rewrite (volatility_numeric fm d cols Hc).
Qed.

(** The sample standard deviation of two values. *)
Lemma sample_std_pair (x y : R) :
  Spec.sample_std [x; y] = Some (R_sqrt.sqrt ((x - y) ^ 2 / 2)%R).
Proof.
  unfold Spec.sample_std, Spec.mean, Spec.sum. simpl. f_equal. f_equal. field.
Qed.

(** The scores of [widening]: none on the first day, then 0.01 / sqrt 2 and
    0.02 / sqrt 2. *)
Lemma widening_scores_value (fm : fill_method) :
  ExactExample.widening_scores fm =
    [None; Some (R_sqrt.sqrt (1 / 20000)%R); Some (R_sqrt.sqrt (1 / 5000)%R)].
Proof.
  unfold ExactExample.widening_scores. cbn [map seq].
  rewrite !nanstd_sample_std.
  replace (1 / 20000)%R with ((101 / 100 - 1 - (102 / 100 - 1)) ^ 2 / 2)%R by field.
  replace (1 / 5000)%R
    with ((10201 / 100 / 101 - 1 - (10506 / 100 / 102 - 1)) ^ 2 / 2)%R by field.
  destruct fm; cbn -[Rdiv Rminus Spec.sample_std];
    rewrite !sample_std_pair; reflexivity.
Qed.

(** The scores of [steady]: none on the first day, then 0.01 / sqrt 2 twice. *)
Lemma steady_scores_value (fm : fill_method) :
  ExactExample.steady_scores fm =
    [None; Some (R_sqrt.sqrt (1 / 20000)%R); Some (R_sqrt.sqrt (1 / 20000)%R)].
Proof.
  unfold ExactExample.steady_scores. cbn [map seq].
  rewrite !nanstd_sample_std.
  replace (1 / 20000)%R with ((101 / 100 - 1 - (102 / 100 - 1)) ^ 2 / 2)%R at 1 by field.
  replace (1 / 20000)%R
    with ((10201 / 100 / 101 - 1 - (10404 / 100 / 102 - 1)) ^ 2 / 2)%R by field.
  destruct fm; cbn -[Rdiv Rminus Spec.sample_std];
    rewrite !sample_std_pair; reflexivity.
Qed.

Lemma widening_run (fm : fill_method) :
  nth_error (heap (mkWorld (Report := unit) [ExactExample.widening] [] [])) 0
    = Some ExactExample.widening /\
  classify_volatility fm 0 (mkWorld (Report := unit) [ExactExample.widening] [] [])
    = (Ok tt, mkWorld [ExactExample.widening_classified fm] [] []) /\
  nth_error (heap (mkWorld (Report := unit) [ExactExample.widening_classified fm] [] [])) 0
    = Some (ExactExample.widening_classified fm).
Proof.
  split; [reflexivity|]. split; [|reflexivity].
  apply (exact_run_numeric fm ExactExample.widening ExactExample.widening_cols).
  reflexivity.
Qed.

Lemma widening_defined_scores (fm : fill_method) :
  Permutation [R_sqrt.sqrt (1 / 20000)%R; R_sqrt.sqrt (1 / 5000)%R]
              (dropna (scores_of (ExactExample.widening_classified fm))).
Proof.
  unfold ExactExample.widening_classified.
  rewrite scores_of_labelled, widening_scores_value. apply Permutation_refl.
Qed.

Lemma widening_scores_ascend :
  (R_sqrt.sqrt (1 / 20000) < R_sqrt.sqrt (1 / 5000))%R.
Proof. apply sqrt_lt_1_alt. lra. Qed.

Lemma widening_scores_sorted :
  Sorted Rle [R_sqrt.sqrt (1 / 20000)%R; R_sqrt.sqrt (1 / 5000)%R].
Proof.
  pose proof widening_scores_ascend.
  repeat constructor. lra.
Qed.

Lemma widening_score_at (fm : fill_method) (i : nat) :
  nth_error (scores_of (ExactExample.widening_classified fm)) i =
  nth_error [None; Some (R_sqrt.sqrt (1 / 20000)%R); Some (R_sqrt.sqrt (1 / 5000)%R)] i.
Proof.
  unfold ExactExample.widening_classified.
  now rewrite scores_of_labelled, widening_scores_value.
Qed.

(** C1 on [widening], whose defined scores are 0.01 / sqrt 2 and
    0.02 / sqrt 2: the median is their average, the second day is at or
    below it and the third day above it. *)
Lemma label_high_iff_above_median_witness :
  Spec.median_of_sorted [R_sqrt.sqrt (1 / 20000)%R; R_sqrt.sqrt (1 / 5000)%R]
    = ((R_sqrt.sqrt (1 / 20000) + R_sqrt.sqrt (1 / 5000)) / 2)%R /\
  nth_error (scores_of (ExactExample.widening_classified NoFill)) 1
    = Some (Some (R_sqrt.sqrt (1 / 20000)%R)) /\
  nth_error (labels_of (ExactExample.widening_classified NoFill)) 1
    = Some "Low Volatility" /\
  nth_error (scores_of (ExactExample.widening_classified NoFill)) 2
    = Some (Some (R_sqrt.sqrt (1 / 5000)%R)) /\
  nth_error (labels_of (ExactExample.widening_classified NoFill)) 2
    = Some "High Volatility".
Proof.
  destruct (widening_run NoFill) as (H1 & H2 & H3).
  pose proof widening_scores_ascend as Hlt.
  split; [reflexivity|].
  split; [apply (widening_score_at NoFill 1)|].
  split; [|split; [apply (widening_score_at NoFill 2)|]].
  - destruct (label_high_iff_above_median unit NoFill 0 _ _ _ _ H1 H2 H3
                [R_sqrt.sqrt (1 / 20000)%R; R_sqrt.sqrt (1 / 5000)%R] 1
                (R_sqrt.sqrt (1 / 20000)%R)
                (widening_defined_scores NoFill) widening_scores_sorted
                (widening_score_at NoFill 1)) as (_ & Hlow & _).
    apply Hlow. unfold Spec.median_of_sorted. simpl. lra.
  - destruct (label_high_iff_above_median unit NoFill 0 _ _ _ _ H1 H2 H3
                [R_sqrt.sqrt (1 / 20000)%R; R_sqrt.sqrt (1 / 5000)%R] 2
                (R_sqrt.sqrt (1 / 5000)%R)
                (widening_defined_scores NoFill) widening_scores_sorted
                (widening_score_at NoFill 2)) as (Hhigh & _).
    apply Hhigh. unfold Spec.median_of_sorted. simpl. lra.
Defined.

(** C2 on [widening]: two defined scores, so the threshold is the mean of
    the two. *)
Lemma threshold_is_median_witness :
  labels_of (ExactExample.widening_classified Pad) =
    np_where (gt (scores_of (ExactExample.widening_classified Pad))
                 (median (scores_of (ExactExample.widening_classified Pad))))
      "High Volatility" "Low Volatility" /\
  median (scores_of (ExactExample.widening_classified Pad))
    = Some ((R_sqrt.sqrt (1 / 20000) + R_sqrt.sqrt (1 / 5000)) / 2)%R.
Proof.
  destruct (widening_run Pad) as (H1 & H2 & H3).
  destruct (threshold_is_median unit Pad 0 _ _ _ _ H1 H2 H3) as (Hlabels & _ & Hvalue).
  split; [exact Hlabels|].
  destruct (Hvalue [R_sqrt.sqrt (1 / 20000)%R; R_sqrt.sqrt (1 / 5000)%R]
              (widening_defined_scores Pad) widening_scores_sorted)
    as (_ & _ & Heven).
  exact (Heven 0%nat eq_refl).
Defined.

(** C3 on [widening]: no score on the first day; the returns of the second
    day are 1% and 2%, those of the third 1% and 3%. *)
Lemma score_is_sample_std_witness :
  nth_error (scores_of (ExactExample.widening_classified NoFill)) 0 = Some None /\
  nth_error (scores_of (ExactExample.widening_classified NoFill)) 1
    = Some (Some (R_sqrt.sqrt (1 / 20000)%R)) /\
  nth_error (scores_of (ExactExample.widening_classified NoFill)) 2
    = Some (Some (R_sqrt.sqrt (1 / 5000)%R)).
Proof.
  destruct (widening_run NoFill) as (H1 & H2 & H3).
  destruct (score_is_sample_std unit NoFill 0 _ _ _ _ ExactExample.widening_cols
              H1 H2 H3 eq_refl) as (_ & H & _).
  - intros name prices x [E|[E|[]]] Hin; injection E as <- <-;
      destruct Hin as [E|[E|[E|[]]]]; injection E as <-; lra.
  - split; [|split].
    + destruct (H 0%nat) as [_ Hfew]; [vm_compute; lia|].
      apply Hfew. vm_compute. lia.
    + destruct (H 1%nat) as [Hstd _]; [vm_compute; lia|].
      rewrite Hstd. cbn -[Rdiv Rminus Spec.sample_std].
      rewrite sample_std_pair. do 3 f_equal. field.
    + destruct (H 2%nat) as [Hstd _]; [vm_compute; lia|].
      rewrite Hstd. cbn -[Rdiv Rminus Spec.sample_std].
      rewrite sample_std_pair. do 3 f_equal. field.
Defined.

(** C4 on the two-ticker table. *)
Lemma pct_change_keeps_all_rows_witness :
  index (ExactExample.rets NoFill) = index ExactExample.prices /\
  nrows (ExactExample.rets NoFill) = nrows ExactExample.prices.
Proof.
  destruct (pct_change_keeps_all_rows NoFill ExactExample.prices
              (ExactExample.rets NoFill) eq_refl) as (Hi & Hn & _).
  split; assumption.
Defined.

(** C9 on the two-ticker table and its column swap. *)
Lemma volatility_permutation_invariant_witness :
  volatility Pad ExactExample.swapped = volatility Pad ExactExample.prices.
Proof.
  apply (volatility_permutation_invariant Pad ExactExample.prices ExactExample.swapped).
  - reflexivity.
  - apply perm_swap.
Defined.


(** C9, counterexample.  Over binary64, [reordered] is [ordered] with two
    ticker columns exchanged; the scores of the second and the fourth day
    change in their last bit, and the one high day moves from the fourth to
    the second. *)
Lemma reordered_columns_move_high_row :
  Permutation (columns ordered) (columns reordered) /\
  index ordered = index reordered /\
  volatility NoFill ordered =
    Ok [None; Some 0x1.870be4c1c28b1p-6%float; Some 0x1.699ebf71b9f22p-6%float;
        Some 0x1.870be4c1c28b2p-6%float] /\
  volatility NoFill reordered =
    Ok [None; Some 0x1.870be4c1c28b2p-6%float; Some 0x1.699ebf71b9f22p-6%float;
        Some 0x1.870be4c1c28b1p-6%float] /\
  labels_of (after NoFill ordered) =
    ["Low Volatility"; "Low Volatility"; "Low Volatility"; "High Volatility"] /\
  labels_of (after NoFill reordered) =
    ["Low Volatility"; "High Volatility"; "Low Volatility"; "Low Volatility"].
Proof.
  split; [apply perm_skip, perm_swap|].
  split; [reflexivity|].
  split; [vm_compute; reflexivity|].
  split; [vm_compute; reflexivity|].
  split; vm_compute; reflexivity.
Qed.

(* ------------------------------------------------------------------ *)
(** ** More concrete runs *)

(** X2 with a provider that has the two-ticker table. *)
Lemma main_writes_both_reports_witness :
  main with_data count_rows count_high NoFill dialogue
       (["AAPL"; "MSFT"], "2024-01-01", "2024-01-10") (mkWorld [] [] [])
  = (Ok Success,
     mkWorld [after NoFill prices]
       [("sweetviz_report.html", 4); ("sweetviz_volatility_report.html", 1)]
       (preamble dialogue ++
        show_html_prints "sweetviz_report.html" ++
        ["Sweetviz report generated: sweetviz_report.html";
         (nl ++ "Generating volatility comparison report...")%string] ++
        show_html_prints "sweetviz_volatility_report.html" ++
        ["Sweetviz volatility comparison report generated: sweetviz_volatility_report.html";
         (nl ++ "All reports have been successfully generated.")%string])).
Proof.
  apply (main_writes_both_reports nat with_data count_rows count_high NoFill dialogue
           ["AAPL"; "MSFT"] "2024-01-01" "2024-01-10" (mkWorld [] [] [])
           (mkRawData (index prices) [("Adj Close", columns prices); ("Close", columns prices)])
           (columns prices) (scores_of (after NoFill prices)) 4 1).
  - reflexivity.
  - reflexivity.
  - reflexivity.
  - reflexivity.
  - vm_compute. reflexivity.
  - vm_compute. reflexivity.
Defined.

(** X3 with a report generator that refuses. *)
Lemma main_general_report_failure_witness :
  exists w',
    main with_data refuse count_high NoFill dialogue
         (["AAPL"; "MSFT"], "2024-01-01", "2024-01-10") (mkWorld [] [] [])
      = (Raise (Exn "ValueError" "nothing to analyze"), w') /\
    files w' = [] /\
    stdout w' = preamble dialogue.
Proof.
  apply (main_general_report_failure nat with_data refuse count_high NoFill dialogue
           ["AAPL"; "MSFT"] "2024-01-01" "2024-01-10" (mkWorld [] [] [])
           (mkRawData (index prices) [("Adj Close", columns prices); ("Close", columns prices)])
           (columns prices)); reflexivity.
Defined.

(** X4 with one ticker: every row is low, and the comparison refuses the
    empty high group. *)
Lemma main_comparison_failure_witness :
  exists w',
    main with_one_ticker count_rows strict_compare NoFill dialogue
         (["AAPL"], "2024-01-01", "2024-01-10") (mkWorld [] [] [])
      = (Raise (Exn "ValueError" "nothing to compare"), w') /\
    files w' = [("sweetviz_report.html", 3)] /\
    stdout w' =
      preamble dialogue ++
      show_html_prints "sweetviz_report.html" ++
      ["Sweetviz report generated: sweetviz_report.html";
       (nl ++ "Generating volatility comparison report...")%string].
Proof.
  apply (main_comparison_failure nat with_one_ticker count_rows strict_compare NoFill
           dialogue ["AAPL"] "2024-01-01" "2024-01-10" (mkWorld [] [] [])
           (mkRawData (index one_ticker) [("Adj Close", columns one_ticker)])
           (columns one_ticker) 3); try reflexivity.
  right. exists [None; None; None]. split; vm_compute; reflexivity.
Defined.

(** X5 on a frame that already carries the label column. *)
Lemma object_column_rejected_witness :
  generate_volatility_comparison count_high Pad 0 "again.html"
    (mkWorld (Report := nat) [after Pad prices] [] [])
  = (Raise TypeError, mkWorld (Report := nat) [after Pad prices] [] []).
Proof.
  apply (object_column_rejected nat count_high Pad 0 "again.html"
           (mkWorld (Report := nat) [after Pad prices] [] []) (after Pad prices) "Volatility_Level"
           ["Low Volatility"; "High Volatility"; "Low Volatility"; "Low Volatility"]).
  - reflexivity.
  - vm_compute. right. right. right. left. reflexivity.
  - simpl. lia.
Defined.

(** X6 on the one-ticker table. *)
Lemma comparison_failure_keeps_columns_witness :
  exists w',
    generate_volatility_comparison strict_compare NoFill 0 "out.html"
      (mkWorld (Report := nat) [one_ticker] [] [])
      = (Raise (Exn "ValueError" "nothing to compare"), w') /\
    nth_error (heap w') 0 = Some (labelled one_ticker [None; None; None]) /\
    files w' = [].
Proof.
  destruct (comparison_failure_keeps_columns nat strict_compare NoFill 0 "out.html"
              (mkWorld (Report := nat) [one_ticker] [] []) one_ticker [None; None; None]
              (Exn "ValueError" "nothing to compare"))
    as (w' & Hrun & Hheap & _ & _ & Hfiles & _).
  - reflexivity.
  - vm_compute. reflexivity.
  - vm_compute. reflexivity.
  - exists w'. auto.
Defined.

(** X7 on the two-ticker table. *)
Lemma second_comparison_raises_witness :
  generate_volatility_comparison count_high NoFill 0 "second.html"
    (snd (generate_volatility_comparison count_high NoFill 0 "first.html"
            (mkWorld (Report := nat) [prices] [] [])))
  = (Raise TypeError,
     snd (generate_volatility_comparison count_high NoFill 0 "first.html"
            (mkWorld (Report := nat) [prices] [] []))).
Proof.
  apply (second_comparison_raises nat count_high NoFill 0 "first.html" "second.html"
           (mkWorld (Report := nat) [prices] [] []) _ prices).
  - reflexivity.
  - vm_compute. lia.
  - vm_compute. reflexivity.
Defined.

(** X12 on a column with a gap, at the row after the gap. *)
Lemma return_missing_iff_witness :
  nth_error (pct_change_col NoFill ExactExample.gap_column) 2 = Some None /\
  nth_error (pct_change_col Pad ExactExample.gap_column) 2 <> Some None.
Proof.
  destruct (return_missing_iff ExactExample.gap_column 1) as [[_ Hno] [Hpad _]].
  - intros x [E|[E|[E|[]]]]; try discriminate; injection E as <-; lra.
  - simpl. lia.
  - split.
    + apply Hno. right. reflexivity.
    + intros H. specialize (Hpad H 0%nat (Nat.le_0_l 1)). discriminate.
Defined.

(** X14 on the lines of [typed]. *)
Lemma prompt_loop_answer_witness :
  exists skipped line s e,
    typed = skipped ++ line :: s :: e :: [] /\
    ["AAPL"; "MSFT"] = tickers_of upper strip line /\
    "2024-01-01" = strip s /\
    "2024-01-10" = strip e.
Proof.
  destruct (prompt_loop_answer upper strip date_shaped typed [] []
              (snd (prompt_loop upper strip date_shaped typed []))
              ["AAPL"; "MSFT"] "2024-01-01" "2024-01-10")
    as (skipped & line & s & e & H1 & H2 & _ & _ & H3 & H4 & _).
  - vm_compute. reflexivity.
  - exists skipped, line, s, e. auto.
Defined.


(** X8 on the two-ticker table. *)
Lemma high_group_at_most_half_witness :
  (2 * length (filter (fun b : bool => b) (partition_of (ExactExample.classified Pad)))
   <= length (dropna (scores_of (ExactExample.classified Pad))))%nat.
Proof.
  destruct (exact_run Pad) as (H1 & H2 & H3).
  exact (high_group_at_most_half unit Pad 0 _ _ _ _ H1 H2 H3).
Defined.

(** X9 on [steady], whose two defined scores are both 0.01 / sqrt 2. *)
Lemma equal_scores_all_low_witness :
  dropna (scores_of (ExactExample.steady_classified NoFill))
    = [R_sqrt.sqrt (1 / 20000)%R; R_sqrt.sqrt (1 / 20000)%R] /\
  labels_of (ExactExample.steady_classified NoFill)
    = ["Low Volatility"; "Low Volatility"; "Low Volatility"] /\
  partition_of (ExactExample.steady_classified NoFill) = [false; false; false].
Proof.
  assert (Hs : dropna (scores_of (ExactExample.steady_classified NoFill))
               = [R_sqrt.sqrt (1 / 20000)%R; R_sqrt.sqrt (1 / 20000)%R]).
  { unfold ExactExample.steady_classified.
    now rewrite scores_of_labelled, steady_scores_value. }
  split; [exact Hs|].
  apply (equal_scores_all_low unit NoFill 0
           (mkWorld [ExactExample.steady] [] [])
           (mkWorld [ExactExample.steady_classified NoFill] [] [])
           ExactExample.steady (ExactExample.steady_classified NoFill)
           (R_sqrt.sqrt (1 / 20000)%R)).
  - reflexivity.
  - apply (exact_run_numeric NoFill ExactExample.steady ExactExample.steady_cols).
    reflexivity.
  - reflexivity.
  - rewrite Hs. intros x [Hx|[Hx|[]]]; symmetry; exact Hx.
Defined.

(** X10 on the first two days. *)
Lemma two_rows_all_low_witness :
  labels_of (ExactExample.two_days_classified Pad)
    = ["Low Volatility"; "Low Volatility"] /\
  partition_of (ExactExample.two_days_classified Pad) = [false; false].
Proof.
  apply (two_rows_all_low unit Pad 0
           (mkWorld [ExactExample.two_days] [] [])
           (mkWorld [ExactExample.two_days_classified Pad] [] [])
           ExactExample.two_days (ExactExample.two_days_classified Pad)).
  - reflexivity.
  - apply (exact_run_numeric Pad ExactExample.two_days). reflexivity.
  - reflexivity.
  - reflexivity.
Defined.

(** X11 on the second day of [ordered]. *)
Lemma score_not_negative_witness :
  nth_error (scores_of (after NoFill ordered)) 1
    = Some (Some 0x1.870be4c1c28b1p-6%float) /\
  PrimFloat.is_nan 0x1.870be4c1c28b1p-6%float = false /\
  PrimFloat.leb 0 0x1.870be4c1c28b1p-6%float = true.
Proof.
  assert (Hs : nth_error (scores_of (after NoFill ordered)) 1
               = Some (Some 0x1.870be4c1c28b1p-6%float))
    by (vm_compute; reflexivity).
  split; [exact Hs|].
  destruct (run_after NoFill ordered) as (H1 & H2 & H3);
    [vm_compute; reflexivity|vm_compute; reflexivity|].
  exact (score_not_negative unit NoFill 0 _ _ _ _ 1 _ H1 H2 H3 Hs).
Defined.

(** X18.  Over binary64 equal returns do not make the score zero: the three
    tickers of [movers] all rise from 3 to 5, their returns are the same
    number, 0.66666666666666674, and yet the mean of the three is
    0.6666666666666666, one unit in the last place below, which leaves a
    score of about 1.36e-16. *)
Theorem equal_returns_nonzero_score :
  pct_change NoFill movers =
    Ok (mkDataFrame (index movers)
          [("AAA", Float64Col [None; Some 0x1.5555555555556p-1%float]);
           ("BBB", Float64Col [None; Some 0x1.5555555555556p-1%float]);
           ("CCC", Float64Col [None; Some 0x1.5555555555556p-1%float])]) /\
  volatility NoFill movers = Ok [None; Some 0x1.3988e1409212ep-53%float] /\
  PrimFloat.ltb 0 0x1.3988e1409212ep-53%float = true.
Proof.
  split; [vm_compute; reflexivity|]. split; vm_compute; reflexivity.
Qed.

(** X13 on a column with a gap. *)
Lemma padded_gap_return_zero_witness :
  nth_error (pct_change_col Pad ExactExample.gap_column) 1 = Some (Some 0%R).
Proof.
  apply (padded_gap_return_zero ExactExample.gap_column 0 50%R).
  - reflexivity.
  - reflexivity.
  - lra.
Defined.
